(** * AEC3 C API: tuning-profile selection, session handles and the
      per-frame processing pipeline of [api/aec3_api.cc]

    The development embeds the three entry points of the file,
    [aec3_create], [aec3_process_frame] and [aec3_destroy], and proves
    properties of them.  The WebRTC classes the file drives (echo
    controller, high-pass filter, audio buffer, audio frame) are not part
    of the file; they enter as an interface ([Collaborators]). *)

From Stdlib Require Import ZArith QArith Qabs Bool List Lia.
From Stdlib Require Import Floats.SpecFloat.
From stdpp Require Import gmap.

Local Open Scope Z_scope.

(** ** Single-precision floats

    [suppression_level] and every tuning field are C++ [float]s.  They are
    modelled as IEEE 754 binary32 data with the Standard Library's
    specification of floating-point numbers ([spec_float]): precision 24,
    infinities at exponent 128. *)
Module F32.

Definition prec : Z := 24.
Definition emax : Z := 128.

Abbreviation float := spec_float.

(** The data a [float] variable can hold: canonical mantissa and
    exponent in range. *)
Definition valid (x : float) : bool := valid_binary prec emax x.

Definition of_Z (n : Z) : float := binary_normalize prec emax n 0 false.

(** A decimal literal with an [f] suffix: the decimal [q] rounded to
    the nearest binary32 datum, ties to even.  The rounding is that of
    the IEEE quotient of numerator by denominator, both of which are
    exact in binary32 for every literal of the source (they are below
    [2^24]). *)
Definition lit (q : Q) : float :=
  SFdiv prec emax (of_Z (Qnum q)) (of_Z (Zpos (Qden q))).

(** The comparison operators of C++ on floats; any comparison with a NaN
    is false. *)
Definition lt (x y : float) : bool := SFltb x y.
Definition gt (x y : float) : bool := SFltb y x.
Definition le (x y : float) : bool := SFleb x y.
Definition ge (x y : float) : bool := SFleb y x.

(** [std::max(a, b)] is [(a < b) ? b : a] and [std::min(a, b)] is
    [(b < a) ? b : a]. *)
Definition max (a b : float) : float := if lt a b then b else a.
Definition min (a b : float) : float := if lt b a then b else a.

Definition is_nan (x : float) : bool :=
  match x with S754_nan => true | _ => false end.

Definition finite_or_zero (x : float) : bool :=
  match x with S754_zero _ | S754_finite _ _ _ => true | _ => false end.

(** *** Exact values

    Every finite binary32 datum is an integer multiple of [2^-149];
    [scaled x] is that integer and [value x] the rational it stands
    for. *)
Definition scaled (x : float) : Z :=
  match x with
  | S754_finite s m e => (if s then -1 else 1) * (Z.pos m * 2 ^ (e + 149))
  | _ => 0
  end.

Definition value (x : float) : Q := Qmake (scaled x) (2 ^ 149).

(** Comparison of a float with an exact rational, on the extended real
    line; false on a NaN. *)
Definition geQ (x : float) (q : Q) : bool :=
  match x with
  | S754_nan => false
  | S754_infinity s => negb s
  | _ => Qle_bool q (value x)
  end.

Definition leQ (x : float) (q : Q) : bool :=
  match x with
  | S754_nan => false
  | S754_infinity s => s
  | _ => Qle_bool (value x) q
  end.

Definition gtQ (x : float) (q : Q) : bool :=
  match x with
  | S754_nan => false
  | S754_infinity s => negb s
  | _ => negb (Qle_bool (value x) q)
  end.

Definition ltQ (x : float) (q : Q) : bool :=
  match x with
  | S754_nan => false
  | S754_infinity s => s
  | _ => negb (Qle_bool q (value x))
  end.

(** [x] is the binary32 datum nearest to the decimal [q]: finite,
    canonical, and at most half a unit in the last place away. *)
Definition nearest (q : Q) (x : float) : bool :=
  match x with
  | S754_zero _ => Qeq_bool q 0
  | S754_finite _ _ e =>
      valid x &&
      Qle_bool (2 * Qabs (value x - q))%Q
               (Qmake (2 ^ (e + 149)) (2 ^ 149))
  | _ => false
  end.

End F32.

Abbreviation float := F32.float.

(** ** The configuration the caller passes to [aec3_create]

    [aec3_config_t] is declared in [aec3_api.h]; the source reads these
    four members of it. *)
Module aec3_config_t.
Record t := {
  sample_rate : Z;
  num_channels : Z;
  export_linear : bool;
  suppression_level : float
}.
End aec3_config_t.

(** ** The engine configuration

    [EchoCanceller3Config] restricted to the members [aec3_create]
    assigns.  Every other member keeps the value its default constructor
    gave it and plays no role here. *)
Module EchoCanceller3Config.

Record MaskingThresholds := {
  enr_transparent : float;
  enr_suppress : float
}.

Record Tuning := {
  mask_lf : MaskingThresholds;
  mask_hf : MaskingThresholds
}.

Record HighBandsSuppression := {
  max_gain_during_echo : float;
  anti_howling_gain : float
}.

Record Suppressor := {
  normal_tuning : Tuning;
  high_bands_suppression : HighBandsSuppression
}.

Record Erle := {
  max_l : float;
  max_h : float
}.

Record MainConfiguration := {
  leakage_converged : float;
  error_floor : float
}.

Record Filter := {
  main : MainConfiguration;
  export_linear_aec_output : bool
}.

Record EchoAudibility := {
  audibility_threshold_lf : float;
  audibility_threshold_mf : float;
  audibility_threshold_hf : float
}.

Record t := {
  filter : Filter;
  erle : Erle;
  echo_audibility : EchoAudibility;
  suppressor : Suppressor
}.

(** Updates of one sub-object, from which the assignments to single
    members are composed. *)
Definition upd_filter (f : Filter -> Filter) (c : t) : t :=
  {| filter := f (filter c); erle := erle c;
     echo_audibility := echo_audibility c; suppressor := suppressor c |}.

Definition upd_erle (f : Erle -> Erle) (c : t) : t :=
  {| filter := filter c; erle := f (erle c);
     echo_audibility := echo_audibility c; suppressor := suppressor c |}.

Definition upd_echo_audibility (f : EchoAudibility -> EchoAudibility) (c : t) : t :=
  {| filter := filter c; erle := erle c;
     echo_audibility := f (echo_audibility c); suppressor := suppressor c |}.

Definition upd_suppressor (f : Suppressor -> Suppressor) (c : t) : t :=
  {| filter := filter c; erle := erle c;
     echo_audibility := echo_audibility c; suppressor := f (suppressor c) |}.

Definition upd_main (f : MainConfiguration -> MainConfiguration) (x : Filter) : Filter :=
  {| main := f (main x); export_linear_aec_output := export_linear_aec_output x |}.

Definition upd_normal_tuning (f : Tuning -> Tuning) (x : Suppressor) : Suppressor :=
  {| normal_tuning := f (normal_tuning x);
     high_bands_suppression := high_bands_suppression x |}.

Definition upd_high_bands_suppression
    (f : HighBandsSuppression -> HighBandsSuppression) (x : Suppressor) : Suppressor :=
  {| normal_tuning := normal_tuning x;
     high_bands_suppression := f (high_bands_suppression x) |}.

Definition upd_mask_lf (f : MaskingThresholds -> MaskingThresholds) (x : Tuning) : Tuning :=
  {| mask_lf := f (mask_lf x); mask_hf := mask_hf x |}.

Definition upd_mask_hf (f : MaskingThresholds -> MaskingThresholds) (x : Tuning) : Tuning :=
  {| mask_lf := mask_lf x; mask_hf := f (mask_hf x) |}.

Definition with_enr_transparent (v : float) (x : MaskingThresholds) : MaskingThresholds :=
  {| enr_transparent := v; enr_suppress := enr_suppress x |}.

Definition with_enr_suppress (v : float) (x : MaskingThresholds) : MaskingThresholds :=
  {| enr_transparent := enr_transparent x; enr_suppress := v |}.

(** One definition per assignment target of the source:
    [set_a_b_c v cfg] is [cfg.a.b.c = v]. *)
Definition set_filter_export_linear_aec_output (v : bool) : t -> t :=
  upd_filter (fun x => {| main := main x; export_linear_aec_output := v |}).

Definition set_suppressor_normal_tuning_mask_lf_enr_transparent (v : float) : t -> t :=
  upd_suppressor (upd_normal_tuning (upd_mask_lf (with_enr_transparent v))).

Definition set_suppressor_normal_tuning_mask_lf_enr_suppress (v : float) : t -> t :=
  upd_suppressor (upd_normal_tuning (upd_mask_lf (with_enr_suppress v))).

Definition set_suppressor_normal_tuning_mask_hf_enr_transparent (v : float) : t -> t :=
  upd_suppressor (upd_normal_tuning (upd_mask_hf (with_enr_transparent v))).

Definition set_suppressor_normal_tuning_mask_hf_enr_suppress (v : float) : t -> t :=
  upd_suppressor (upd_normal_tuning (upd_mask_hf (with_enr_suppress v))).

Definition set_erle_max_l (v : float) : t -> t :=
  upd_erle (fun x => {| max_l := v; max_h := max_h x |}).

Definition set_erle_max_h (v : float) : t -> t :=
  upd_erle (fun x => {| max_l := max_l x; max_h := v |}).

Definition set_filter_main_leakage_converged (v : float) : t -> t :=
  upd_filter (upd_main (fun x =>
    {| leakage_converged := v; error_floor := error_floor x |})).

Definition set_filter_main_error_floor (v : float) : t -> t :=
  upd_filter (upd_main (fun x =>
    {| leakage_converged := leakage_converged x; error_floor := v |})).

Definition set_suppressor_high_bands_suppression_max_gain_during_echo (v : float) : t -> t :=
  upd_suppressor (upd_high_bands_suppression (fun x =>
    {| max_gain_during_echo := v; anti_howling_gain := anti_howling_gain x |})).

Definition set_suppressor_high_bands_suppression_anti_howling_gain (v : float) : t -> t :=
  upd_suppressor (upd_high_bands_suppression (fun x =>
    {| max_gain_during_echo := max_gain_during_echo x; anti_howling_gain := v |})).

Definition set_echo_audibility_audibility_threshold_lf (v : float) : t -> t :=
  upd_echo_audibility (fun x =>
    {| audibility_threshold_lf := v;
       audibility_threshold_mf := audibility_threshold_mf x;
       audibility_threshold_hf := audibility_threshold_hf x |}).

Definition set_echo_audibility_audibility_threshold_mf (v : float) : t -> t :=
  upd_echo_audibility (fun x =>
    {| audibility_threshold_lf := audibility_threshold_lf x;
       audibility_threshold_mf := v;
       audibility_threshold_hf := audibility_threshold_hf x |}).

Definition set_echo_audibility_audibility_threshold_hf (v : float) : t -> t :=
  upd_echo_audibility (fun x =>
    {| audibility_threshold_lf := audibility_threshold_lf x;
       audibility_threshold_mf := audibility_threshold_mf x;
       audibility_threshold_hf := v |}).

End EchoCanceller3Config.

(** ** Profile selection (lines 29 to 71 of [aec3_create]) *)
Module Profile.
Import EchoCanceller3Config.

(** Lines 34 and 35: a level that is not greater than zero becomes 1.0,
    then the level is clamped to [0.0, 1.0]. *)
Definition substitute_default (level : float) : float :=
  if F32.gt level (F32.lit 0.0) then level else F32.lit 1.0.

Definition clamp (suppression_level : float) : float :=
  F32.max (F32.lit 0.0) (F32.min (F32.lit 1.0) suppression_level).

Definition effective_level (level : float) : float :=
  let suppression_level := substitute_default level in
  let suppression_level := clamp suppression_level in
  suppression_level.

(** The assignments of the branch [suppression_level >= 0.8f]. *)
Definition maximum (aec_config : t) : t :=
  let aec_config := set_suppressor_normal_tuning_mask_lf_enr_transparent (F32.lit 0.1) aec_config in
  let aec_config := set_suppressor_normal_tuning_mask_lf_enr_suppress (F32.lit 0.2) aec_config in
  let aec_config := set_suppressor_normal_tuning_mask_hf_enr_transparent (F32.lit 0.05) aec_config in
  let aec_config := set_suppressor_normal_tuning_mask_hf_enr_suppress (F32.lit 0.08) aec_config in
  let aec_config := set_erle_max_l (F32.lit 8.0) aec_config in
  let aec_config := set_erle_max_h (F32.lit 4.0) aec_config in
  let aec_config := set_filter_main_leakage_converged (F32.lit 0.00001) aec_config in
  let aec_config := set_filter_main_error_floor (F32.lit 0.0005) aec_config in
  let aec_config := set_suppressor_high_bands_suppression_max_gain_during_echo (F32.lit 0.1) aec_config in
  let aec_config := set_suppressor_high_bands_suppression_anti_howling_gain (F32.lit 0.005) aec_config in
  let aec_config := set_echo_audibility_audibility_threshold_lf (F32.lit 5.0) aec_config in
  let aec_config := set_echo_audibility_audibility_threshold_mf (F32.lit 5.0) aec_config in
  let aec_config := set_echo_audibility_audibility_threshold_hf (F32.lit 5.0) aec_config in
  aec_config.

(** The assignments of the branch [suppression_level >= 0.5f]. *)
Definition medium (aec_config : t) : t :=
  let aec_config := set_suppressor_normal_tuning_mask_lf_enr_transparent (F32.lit 0.2) aec_config in
  let aec_config := set_suppressor_normal_tuning_mask_lf_enr_suppress (F32.lit 0.3) aec_config in
  let aec_config := set_suppressor_normal_tuning_mask_hf_enr_transparent (F32.lit 0.06) aec_config in
  let aec_config := set_suppressor_normal_tuning_mask_hf_enr_suppress (F32.lit 0.09) aec_config in
  let aec_config := set_erle_max_l (F32.lit 6.0) aec_config in
  let aec_config := set_erle_max_h (F32.lit 3.0) aec_config in
  let aec_config := set_suppressor_high_bands_suppression_max_gain_during_echo (F32.lit 0.3) aec_config in
  aec_config.

(** Lines 29 to 71: [aec_config] starts as the default-constructed
    engine configuration [defaults]. *)
Definition configure (config : aec3_config_t.t) (defaults : t) : t :=
  let aec_config := defaults in
  let aec_config :=
    set_filter_export_linear_aec_output (aec3_config_t.export_linear config) aec_config in
  let suppression_level := effective_level (aec3_config_t.suppression_level config) in
  if F32.ge suppression_level (F32.lit 0.8) then maximum aec_config
  else if F32.ge suppression_level (F32.lit 0.5) then medium aec_config
  else aec_config.

(** A configuration with the given level; the other members are those
    of a 16 kHz mono session. *)
Definition with_level (level : float) : aec3_config_t.t :=
  {| aec3_config_t.sample_rate := 16000;
     aec3_config_t.num_channels := 1;
     aec3_config_t.export_linear := false;
     aec3_config_t.suppression_level := level |}.

(** Bounds on the value of a float, both ends excluded. *)
Definition strictly_between (lo hi : Q) (v : float) : bool :=
  F32.gtQ v lo && F32.ltQ v hi.

(** Ranges of the members the maximum branch assigns: thresholds,
    gains, leakage and error floor strictly between 0 and 1, ERLE
    ceilings strictly between 1 and 10, audibility thresholds strictly
    between 0 and 10. *)
Definition maximum_in_range (c : t) : bool :=
  let lf := mask_lf (normal_tuning (suppressor c)) in
  let hf := mask_hf (normal_tuning (suppressor c)) in
  let hb := high_bands_suppression (suppressor c) in
  strictly_between 0 1 (enr_transparent lf) &&
  strictly_between 0 1 (enr_suppress lf) &&
  strictly_between 0 1 (enr_transparent hf) &&
  strictly_between 0 1 (enr_suppress hf) &&
  strictly_between 1 10 (max_l (erle c)) &&
  strictly_between 1 10 (max_h (erle c)) &&
  strictly_between 0 1 (leakage_converged (main (filter c))) &&
  strictly_between 0 1 (error_floor (main (filter c))) &&
  strictly_between 0 1 (max_gain_during_echo hb) &&
  strictly_between 0 1 (anti_howling_gain hb) &&
  strictly_between 0 10 (audibility_threshold_lf (echo_audibility c)) &&
  strictly_between 0 10 (audibility_threshold_mf (echo_audibility c)) &&
  strictly_between 0 10 (audibility_threshold_hf (echo_audibility c)).

(** The same ranges, on the members the medium branch assigns. *)
Definition medium_in_range (c : t) : bool :=
  let lf := mask_lf (normal_tuning (suppressor c)) in
  let hf := mask_hf (normal_tuning (suppressor c)) in
  let hb := high_bands_suppression (suppressor c) in
  strictly_between 0 1 (enr_transparent lf) &&
  strictly_between 0 1 (enr_suppress lf) &&
  strictly_between 0 1 (enr_transparent hf) &&
  strictly_between 0 1 (enr_suppress hf) &&
  strictly_between 1 10 (max_l (erle c)) &&
  strictly_between 1 10 (max_h (erle c)) &&
  strictly_between 0 1 (max_gain_during_echo hb).

(** The thresholds and ceilings by which two configurations are
    compared: [c2] is at least as aggressive as [c1] when each
    transparency, suppression and audibility threshold of [c2] is at
    most that of [c1] and each ERLE ceiling at least that of [c1]. *)
Definition at_least_as_aggressive (c2 c1 : t) : bool :=
  let lf c := mask_lf (normal_tuning (suppressor c)) in
  let hf c := mask_hf (normal_tuning (suppressor c)) in
  F32.le (enr_transparent (lf c2)) (enr_transparent (lf c1)) &&
  F32.le (enr_suppress (lf c2)) (enr_suppress (lf c1)) &&
  F32.le (enr_transparent (hf c2)) (enr_transparent (hf c1)) &&
  F32.le (enr_suppress (hf c2)) (enr_suppress (hf c1)) &&
  F32.le (audibility_threshold_lf (echo_audibility c2))
         (audibility_threshold_lf (echo_audibility c1)) &&
  F32.le (audibility_threshold_mf (echo_audibility c2))
         (audibility_threshold_mf (echo_audibility c1)) &&
  F32.le (audibility_threshold_hf (echo_audibility c2))
         (audibility_threshold_hf (echo_audibility c1)) &&
  F32.ge (max_l (erle c2)) (max_l (erle c1)) &&
  F32.ge (max_h (erle c2)) (max_h (erle c1)).

(** Engine defaults no more aggressive than what the two overriding
    branches assign: on the members the medium branch assigns, no more
    aggressive than the medium values; on the audibility thresholds,
    which only the maximum branch assigns, no lower than 5.0. *)
Definition mild (defaults : t) : bool :=
  let lf := mask_lf (normal_tuning (suppressor defaults)) in
  let hf := mask_hf (normal_tuning (suppressor defaults)) in
  F32.le (F32.lit 0.2) (enr_transparent lf) &&
  F32.le (F32.lit 0.3) (enr_suppress lf) &&
  F32.le (F32.lit 0.06) (enr_transparent hf) &&
  F32.le (F32.lit 0.09) (enr_suppress hf) &&
  F32.le (F32.lit 5.0) (audibility_threshold_lf (echo_audibility defaults)) &&
  F32.le (F32.lit 5.0) (audibility_threshold_mf (echo_audibility defaults)) &&
  F32.le (F32.lit 5.0) (audibility_threshold_hf (echo_audibility defaults)) &&
  F32.le (max_l (erle defaults)) (F32.lit 6.0) &&
  F32.le (max_h (erle defaults)) (F32.lit 3.0).

(** A sample default configuration, with the values upstream WebRTC
    gives these members; it serves to instantiate statements that
    quantify over the engine defaults. *)
Definition sample_defaults : t :=
  {| filter :=
       {| main := {| leakage_converged := F32.lit 0.00005;
                     error_floor := F32.lit 0.001 |};
          export_linear_aec_output := false |};
     erle := {| max_l := F32.lit 4.0; max_h := F32.lit 1.5 |};
     echo_audibility :=
       {| audibility_threshold_lf := F32.lit 10.0;
          audibility_threshold_mf := F32.lit 10.0;
          audibility_threshold_hf := F32.lit 10.0 |};
     suppressor :=
       {| normal_tuning :=
            {| mask_lf := {| enr_transparent := F32.lit 0.3;
                             enr_suppress := F32.lit 0.4 |};
               mask_hf := {| enr_transparent := F32.lit 0.07;
                             enr_suppress := F32.lit 0.1 |} |};
          high_bands_suppression :=
            {| max_gain_during_echo := F32.lit 1.0;
               anti_howling_gain := F32.lit 0.01 |} |} |}.

End Profile.

(** ** Caller memory: PCM16 arrays and [memcpy] *)
Module Mem.

(** A 16-bit sample is held as its object representation, the two bytes
    in memory order.  The file never computes with samples, it only
    moves them. *)
Definition int16_t : Type := Byte.byte * Byte.byte.

Definition sizeof_int16_t : Z := 2.

Fixpoint bytes_of (l : list int16_t) : list Byte.byte :=
  match l with
  | [] => []
  | (b0, b1) :: l => b0 :: b1 :: bytes_of l
  end.

Fixpoint samples_of (l : list Byte.byte) : list int16_t :=
  match l with
  | b0 :: b1 :: l => (b0, b1) :: samples_of l
  | _ => []
  end.

(** [memcpy(dst, src, n)] on byte arrays.  C leaves a copy that runs
    past the end of either array undefined: [None]. *)
Definition memcpy_bytes (dst src : list Byte.byte) (n : Z) : option (list Byte.byte) :=
  if (0 <=? n) && (n <=? Z.of_nat (length src)) && (n <=? Z.of_nat (length dst))
  then Some (take (Z.to_nat n) src ++ drop (Z.to_nat n) dst)
  else None.

(** [memcpy] between two [int16_t] arrays; [n] counts bytes. *)
Definition memcpy (dst src : list int16_t) (n : Z) : option (list int16_t) :=
  option_map samples_of (memcpy_bytes (bytes_of dst) (bytes_of src) n).

(** [size_t] arithmetic wraps at [2^64]. *)
Definition to_size_t (z : Z) : Z := z mod 2 ^ 64.

Definition size_mul (a b : Z) : Z := to_size_t (a * b).

End Mem.

Abbreviation int16_t := Mem.int16_t.

(** ** The WebRTC classes the file drives *)

(** The two enumerators of [AudioFrame] the source passes to
    [UpdateFrame]. *)
Inductive SpeechType := kNormalSpeech.
Inductive VADActivity := kVadActive.

(** [StreamConfig(sample_rate_hz, num_channels, has_keyboard)] and its two
    accessors. *)
Module StreamConfig.
Record t := {
  sample_rate_hz : Z;
  num_channels : Z;
  has_keyboard : bool
}.
End StreamConfig.

(** The operations of [EchoControl], [HighPassFilter], [AudioBuffer] and
    [AudioFrame] that the file calls.  Their code is outside the file; an
    operation on an object is a function from the states of the objects
    it may modify to their new states.

    [ProcessCapture] appears twice, for the two ways the source calls it:
    with a linear output buffer and with [nullptr]. *)
Class Collaborators := {
  EchoControl : Type;
  HighPassFilter : Type;
  AudioBuffer : Type;
  AudioFrame : Type;
  (** [EchoCanceller3Config aec_config;] *)
  default_config : EchoCanceller3Config.t;
  (** [EchoCanceller3Factory(aec_config).Create(rate, render, capture)] *)
  Factory_Create : EchoCanceller3Config.t -> Z -> Z -> Z -> EchoControl;
  HighPassFilter_new : Z -> Z -> HighPassFilter;
  AudioBuffer_new : Z -> Z -> Z -> Z -> Z -> Z -> AudioBuffer;
  AudioFrame_new : AudioFrame;
  (** [UpdateFrame(timestamp, data, samples_per_channel, sample_rate_hz,
      speech_type, vad_activity, num_channels)] *)
  UpdateFrame : AudioFrame -> Z -> option (list int16_t) -> Z -> Z ->
                SpeechType -> VADActivity -> Z -> AudioFrame;
  (** the array [data()] points to *)
  data : AudioFrame -> list int16_t;
  CopyFrom : AudioBuffer -> AudioFrame -> AudioBuffer;
  CopyTo : AudioBuffer -> AudioFrame -> AudioBuffer * AudioFrame;
  SplitIntoFrequencyBands : AudioBuffer -> AudioBuffer;
  MergeFrequencyBands : AudioBuffer -> AudioBuffer;
  AnalyzeRender : EchoControl -> AudioBuffer -> EchoControl * AudioBuffer;
  AnalyzeCapture : EchoControl -> AudioBuffer -> EchoControl * AudioBuffer;
  SetAudioBufferDelay : EchoControl -> Z -> EchoControl;
  ProcessCapture : EchoControl -> AudioBuffer -> bool -> EchoControl * AudioBuffer;
  ProcessCapture_linear : EchoControl -> AudioBuffer -> AudioBuffer -> bool ->
                          EchoControl * AudioBuffer * AudioBuffer;
  HighPassFilter_Process : HighPassFilter -> AudioBuffer -> bool ->
                           HighPassFilter * AudioBuffer
}.

(** ** Calls issued

    The objects of a handle and the caller's two output arrays, by name,
    and the calls the file makes on them.  A run records its calls in
    program order. *)
Inductive buffer_id := RefAudio | AecAudio | AecLinearAudio.
Inductive frame_id := RefFrame | AecFrame.
Inductive caller_array := OutputFrame | LinearOutputFrame.

Definition addr := positive.

Inductive call :=
| New_aec3_handle (a : addr)
| Call_Factory_Create (aec_config : EchoCanceller3Config.t)
    (sample_rate_hz num_render_channels num_capture_channels : Z)
| New_HighPassFilter (sample_rate_hz num_channels : Z)
| New_AudioBuffer (b : buffer_id)
    (input_rate input_channels buffer_rate buffer_channels output_rate output_channels : Z)
| Delete_aec3_handle (a : addr)
| Call_UpdateFrame (f : frame_id) (timestamp : Z) (data : option (list int16_t))
    (samples_per_channel sample_rate_hz : Z)
    (speech_type : SpeechType) (vad_activity : VADActivity) (num_channels : Z)
| Call_CopyFrom (b : buffer_id) (f : frame_id)
| Call_CopyTo (b : buffer_id) (f : frame_id)
| Call_SplitIntoFrequencyBands (b : buffer_id)
| Call_MergeFrequencyBands (b : buffer_id)
| Call_AnalyzeRender (b : buffer_id)
| Call_AnalyzeCapture (b : buffer_id)
| Call_HighPassFilter_Process (b : buffer_id) (use_split_band_data : bool)
| Call_SetAudioBufferDelay (delay : Z)
| Call_ProcessCapture (capture : buffer_id) (linear_output : option buffer_id)
    (level_change : bool)
| Call_memcpy (dst : caller_array) (src : frame_id) (n : Z).

(** Writes into the caller's array [d]. *)
Definition writes_to (d : caller_array) (c : call) : bool :=
  match c, d with
  | Call_memcpy OutputFrame _ _, OutputFrame => true
  | Call_memcpy LinearOutputFrame _ _, LinearOutputFrame => true
  | _, _ => false
  end.

(** ** Runs: state passing with undefined behaviour *)
Inductive outcome (A : Type) :=
| Returns (a : A)
| Undefined.
Arguments Returns {A} a.
Arguments Undefined {A}.

Definition M (S A : Type) : Type := S -> outcome (A * S).

Definition ret {S A} (a : A) : M S A := fun s => Returns (a, s).

Definition bind {S A B} (m : M S A) (k : A -> M S B) : M S B :=
  fun s => match m s with
           | Returns (a, s') => k a s'
           | Undefined => Undefined
           end.

Definition undefined {S A} : M S A := fun _ => Undefined.

Declare Scope run_scope.
Delimit Scope run_scope with run.
Notation "x <- m ;; k" := (bind m (fun x => k))
  (at level 100, m at next level, right associativity) : run_scope.
Notation "m ;; k" := (bind m (fun _ => k))
  (at level 100, right associativity) : run_scope.

Local Open Scope run_scope.

(** ** The handle, the world, and the three entry points *)
Section Api.
Context `{Collaborators}.

(** [struct aec3_handle].  The four smart pointers [aec3_create] always
    fills are held by value; [aec_linear_audio], which the file tests
    for null, is an [option]. *)
Record aec3_handle := {
  echo_controller : EchoControl;
  hp_filter : HighPassFilter;
  ref_audio : AudioBuffer;
  aec_audio : AudioBuffer;
  aec_linear_audio : option AudioBuffer;
  ref_frame : AudioFrame;
  aec_frame : AudioFrame;
  sample_rate : Z;
  num_channels : Z
}.

Definition set_echo_controller (v : EchoControl) (h : aec3_handle) : aec3_handle :=
  {| echo_controller := v; hp_filter := hp_filter h; ref_audio := ref_audio h;
     aec_audio := aec_audio h; aec_linear_audio := aec_linear_audio h;
     ref_frame := ref_frame h; aec_frame := aec_frame h;
     sample_rate := sample_rate h; num_channels := num_channels h |}.

Definition set_hp_filter (v : HighPassFilter) (h : aec3_handle) : aec3_handle :=
  {| echo_controller := echo_controller h; hp_filter := v; ref_audio := ref_audio h;
     aec_audio := aec_audio h; aec_linear_audio := aec_linear_audio h;
     ref_frame := ref_frame h; aec_frame := aec_frame h;
     sample_rate := sample_rate h; num_channels := num_channels h |}.

(** The audio buffer called [b], if the handle has it. *)
Definition buffer_of (b : buffer_id) (h : aec3_handle) : option AudioBuffer :=
  match b with
  | RefAudio => Some (ref_audio h)
  | AecAudio => Some (aec_audio h)
  | AecLinearAudio => aec_linear_audio h
  end.

Definition set_buffer (b : buffer_id) (v : AudioBuffer) (h : aec3_handle) : aec3_handle :=
  {| echo_controller := echo_controller h; hp_filter := hp_filter h;
     ref_audio := match b with RefAudio => v | _ => ref_audio h end;
     aec_audio := match b with AecAudio => v | _ => aec_audio h end;
     aec_linear_audio :=
       match b with AecLinearAudio => Some v | _ => aec_linear_audio h end;
     ref_frame := ref_frame h; aec_frame := aec_frame h;
     sample_rate := sample_rate h; num_channels := num_channels h |}.

Definition frame_of (f : frame_id) (h : aec3_handle) : AudioFrame :=
  match f with
  | RefFrame => ref_frame h
  | AecFrame => aec_frame h
  end.

Definition set_frame (f : frame_id) (v : AudioFrame) (h : aec3_handle) : aec3_handle :=
  {| echo_controller := echo_controller h; hp_filter := hp_filter h;
     ref_audio := ref_audio h; aec_audio := aec_audio h;
     aec_linear_audio := aec_linear_audio h;
     ref_frame := match f with RefFrame => v | _ => ref_frame h end;
     aec_frame := match f with AecFrame => v | _ => aec_frame h end;
     sample_rate := sample_rate h; num_channels := num_channels h |}.

(** The world: the live handle objects by address, and the calls issued
    so far, oldest first. *)
Record world := {
  heap : gmap addr aec3_handle;
  calls : list call
}.

Definition emit (c : call) : M world unit :=
  fun w => Returns (tt, {| heap := heap w; calls := calls w ++ [c] |}).

(** A constructor call: its record, and the object it yields. *)
Definition construct {A} (c : call) (v : A) : M world A :=
  emit c ;; ret v.

(** [new aec3_handle_t]: an address at which no handle lives. *)
Definition new_aec3_handle_t : M world addr :=
  fun w => let a := fresh (dom (heap w)) in
           Returns (a, {| heap := heap w; calls := calls w ++ [New_aec3_handle a] |}).

Definition store (a : addr) (h : aec3_handle) : M world unit :=
  fun w => Returns (tt, {| heap := <[a := h]> (heap w); calls := calls w |}).

Definition kLinearOutputRateHz : Z := 16000.

(** *** [aec3_create] *)
Definition aec3_create (config : option aec3_config_t.t) : M world (option addr) :=
  match config with
  | None => ret None
  | Some config =>
      handle <- new_aec3_handle_t ;;
      let sample_rate := aec3_config_t.sample_rate config in
      let num_channels := aec3_config_t.num_channels config in
      let aec_config := Profile.configure config default_config in
      echo_controller <-
        construct
          (Call_Factory_Create aec_config (aec3_config_t.sample_rate config)
             (aec3_config_t.num_channels config) (aec3_config_t.num_channels config))
          (Factory_Create aec_config (aec3_config_t.sample_rate config)
             (aec3_config_t.num_channels config) (aec3_config_t.num_channels config)) ;;
      hp_filter <-
        construct
          (New_HighPassFilter (aec3_config_t.sample_rate config)
             (aec3_config_t.num_channels config))
          (HighPassFilter_new (aec3_config_t.sample_rate config)
             (aec3_config_t.num_channels config)) ;;
      let stream_config :=
        {| StreamConfig.sample_rate_hz := aec3_config_t.sample_rate config;
           StreamConfig.num_channels := aec3_config_t.num_channels config;
           StreamConfig.has_keyboard := false |} in
      let rate := StreamConfig.sample_rate_hz stream_config in
      let channels := StreamConfig.num_channels stream_config in
      ref_audio <-
        construct (New_AudioBuffer RefAudio rate channels rate channels rate channels)
          (AudioBuffer_new rate channels rate channels rate channels) ;;
      aec_audio <-
        construct (New_AudioBuffer AecAudio rate channels rate channels rate channels)
          (AudioBuffer_new rate channels rate channels rate channels) ;;
      aec_linear_audio <-
        (if aec3_config_t.export_linear config then
           b <- construct
                  (New_AudioBuffer AecLinearAudio
                     kLinearOutputRateHz channels kLinearOutputRateHz channels
                     kLinearOutputRateHz channels)
                  (AudioBuffer_new
                     kLinearOutputRateHz channels kLinearOutputRateHz channels
                     kLinearOutputRateHz channels) ;;
           ret (Some b)
         else ret None) ;;
      store handle
        {| echo_controller := echo_controller; hp_filter := hp_filter;
           ref_audio := ref_audio; aec_audio := aec_audio;
           aec_linear_audio := aec_linear_audio;
           ref_frame := AudioFrame_new; aec_frame := AudioFrame_new;
           sample_rate := sample_rate; num_channels := num_channels |} ;;
      ret (Some handle)
  end.

(** *** [aec3_destroy]

    [delete] of a null pointer does nothing; [delete] of a pointer to no
    live object is undefined. *)
Definition aec3_destroy (handle : option addr) : M world unit :=
  match handle with
  | None => ret tt
  | Some a =>
      fun w => match heap w !! a with
               | Some _ =>
                   Returns (tt, {| heap := delete a (heap w);
                                   calls := calls w ++ [Delete_aec3_handle a] |})
               | None => Undefined
               end
  end.

(** *** The frame pipeline

    While one call of [aec3_process_frame] runs, the state is the
    handle object, the caller's two output arrays, and the calls issued
    by this call. *)
Record frame_state := {
  hd : aec3_handle;
  output : list int16_t;
  linear_output : option (list int16_t);
  issued : list call
}.

Definition read {A} (f : aec3_handle -> A) : M frame_state A :=
  fun s => Returns (f (hd s), s).

Definition modify (f : aec3_handle -> aec3_handle) : M frame_state unit :=
  fun s => Returns (tt, {| hd := f (hd s); output := output s;
                           linear_output := linear_output s; issued := issued s |}).

Definition record (c : call) : M frame_state unit :=
  fun s => Returns (tt, {| hd := hd s; output := output s;
                           linear_output := linear_output s;
                           issued := issued s ++ [c] |}).

(** [handle->b]: dereferencing a null smart pointer is undefined. *)
Definition deref (b : buffer_id) : M frame_state AudioBuffer :=
  fun s => match buffer_of b (hd s) with
           | Some x => Returns (x, s)
           | None => Undefined
           end.

Definition UpdateFrame_ (f : frame_id) (timestamp : Z) (samples : option (list int16_t))
    (samples_per_channel sample_rate_hz : Z)
    (speech_type : SpeechType) (vad_activity : VADActivity) (channels : Z)
    : M frame_state unit :=
  record (Call_UpdateFrame f timestamp samples samples_per_channel sample_rate_hz
            speech_type vad_activity channels) ;;
  modify (fun h =>
    set_frame f
      (UpdateFrame (frame_of f h) timestamp samples samples_per_channel
         sample_rate_hz speech_type vad_activity channels) h).

Definition CopyFrom_ (b : buffer_id) (f : frame_id) : M frame_state unit :=
  x <- deref b ;;
  record (Call_CopyFrom b f) ;;
  modify (fun h => set_buffer b (CopyFrom x (frame_of f h)) h).

Definition CopyTo_ (b : buffer_id) (f : frame_id) : M frame_state unit :=
  x <- deref b ;;
  record (Call_CopyTo b f) ;;
  modify (fun h =>
    let r := CopyTo x (frame_of f h) in
    set_frame f (snd r) (set_buffer b (fst r) h)).

Definition SplitIntoFrequencyBands_ (b : buffer_id) : M frame_state unit :=
  x <- deref b ;;
  record (Call_SplitIntoFrequencyBands b) ;;
  modify (set_buffer b (SplitIntoFrequencyBands x)).

Definition MergeFrequencyBands_ (b : buffer_id) : M frame_state unit :=
  x <- deref b ;;
  record (Call_MergeFrequencyBands b) ;;
  modify (set_buffer b (MergeFrequencyBands x)).

Definition AnalyzeRender_ (b : buffer_id) : M frame_state unit :=
  x <- deref b ;;
  record (Call_AnalyzeRender b) ;;
  modify (fun h =>
    let r := AnalyzeRender (echo_controller h) x in
    set_echo_controller (fst r) (set_buffer b (snd r) h)).

Definition AnalyzeCapture_ (b : buffer_id) : M frame_state unit :=
  x <- deref b ;;
  record (Call_AnalyzeCapture b) ;;
  modify (fun h =>
    let r := AnalyzeCapture (echo_controller h) x in
    set_echo_controller (fst r) (set_buffer b (snd r) h)).

Definition HighPassFilter_Process_ (b : buffer_id) (use_split_band_data : bool)
    : M frame_state unit :=
  x <- deref b ;;
  record (Call_HighPassFilter_Process b use_split_band_data) ;;
  modify (fun h =>
    let r := HighPassFilter_Process (hp_filter h) x use_split_band_data in
    set_hp_filter (fst r) (set_buffer b (snd r) h)).

Definition SetAudioBufferDelay_ (delay : Z) : M frame_state unit :=
  record (Call_SetAudioBufferDelay delay) ;;
  modify (fun h => set_echo_controller (SetAudioBufferDelay (echo_controller h) delay) h).

Definition ProcessCapture_ (capture : buffer_id) (linear : option buffer_id)
    (level_change : bool) : M frame_state unit :=
  x <- deref capture ;;
  match linear with
  | Some l =>
      y <- deref l ;;
      record (Call_ProcessCapture capture (Some l) level_change) ;;
      modify (fun h =>
        let r := ProcessCapture_linear (echo_controller h) x y level_change in
        set_echo_controller (fst (fst r))
          (set_buffer l (snd r) (set_buffer capture (snd (fst r)) h)))
  | None =>
      record (Call_ProcessCapture capture None level_change) ;;
      modify (fun h =>
        let r := ProcessCapture (echo_controller h) x level_change in
        set_echo_controller (fst r) (set_buffer capture (snd r) h))
  end.

(** [memcpy(d, handle->f.data(), n)] into one of the caller's arrays. *)
Definition memcpy_ (d : caller_array) (f : frame_id) (n : Z) : M frame_state unit :=
  fun s =>
    let src := data (frame_of f (hd s)) in
    match d with
    | OutputFrame =>
        match Mem.memcpy (output s) src n with
        | Some o =>
            Returns (tt, {| hd := hd s; output := o;
                            linear_output := linear_output s;
                            issued := issued s ++ [Call_memcpy d f n] |})
        | None => Undefined
        end
    | LinearOutputFrame =>
        match linear_output s with
        | Some dst =>
            match Mem.memcpy dst src n with
            | Some o =>
                Returns (tt, {| hd := hd s; output := output s;
                                linear_output := Some o;
                                issued := issued s ++ [Call_memcpy d f n] |})
            | None => Undefined
            end
        | None => Undefined
        end
    end.

Definition is_null {A} (p : option A) : bool :=
  match p with Some _ => false | None => true end.

(** Lines 115 to 151: staging of the two input frames, analysis,
    filtering and suppression, up to the copy of the processed capture
    buffer into the staging frame. *)
Definition process (reference_frame capture_frame : list int16_t)
    (frame_size buffer_delay : Z) : M frame_state unit :=
  rate <- read sample_rate ;;
  UpdateFrame_ RefFrame 0 (Some reference_frame) frame_size rate
    kNormalSpeech kVadActive 1 ;;
  rate <- read sample_rate ;;
  UpdateFrame_ AecFrame 0 (Some capture_frame) frame_size rate
    kNormalSpeech kVadActive 1 ;;
  CopyFrom_ RefAudio RefFrame ;;
  CopyFrom_ AecAudio AecFrame ;;
  SplitIntoFrequencyBands_ RefAudio ;;
  AnalyzeRender_ RefAudio ;;
  MergeFrequencyBands_ RefAudio ;;
  AnalyzeCapture_ AecAudio ;;
  SplitIntoFrequencyBands_ AecAudio ;;
  HighPassFilter_Process_ AecAudio true ;;
  SetAudioBufferDelay_ buffer_delay ;;
  linear <- read aec_linear_audio ;;
  (if negb (is_null linear)
   then ProcessCapture_ AecAudio (Some AecLinearAudio) false
   else ProcessCapture_ AecAudio None false) ;;
  MergeFrequencyBands_ AecAudio ;;
  CopyTo_ AecAudio AecFrame.

(** The byte count of the copy into [output_frame]:
    [frame_size * handle->num_channels * sizeof(int16_t)] in [size_t]
    arithmetic. *)
Definition output_bytes (frame_size channels : Z) : Z :=
  Mem.size_mul (Mem.size_mul frame_size (Mem.to_size_t channels)) Mem.sizeof_int16_t.

(** Lines 152 and 153. *)
Definition copy_out (frame_size : Z) : M frame_state unit :=
  channels <- read num_channels ;;
  memcpy_ OutputFrame AecFrame (output_bytes frame_size channels).

(** Lines 155 to 163. *)
Definition linear_step : M frame_state unit :=
  linear <- read aec_linear_audio ;;
  linear_output_frame <- (fun s => Returns (linear_output s, s)) ;;
  if negb (is_null linear_output_frame) && negb (is_null linear)
  then
    UpdateFrame_ AecFrame 0 None (kLinearOutputRateHz ÷ 100) kLinearOutputRateHz
      kNormalSpeech kVadActive 1 ;;
    CopyTo_ AecLinearAudio AecFrame ;;
    memcpy_ LinearOutputFrame AecFrame 320
  else ret tt.

(** Lines 115 to 165, past the null checks. *)
Definition pipeline (reference_frame capture_frame : list int16_t)
    (frame_size buffer_delay : Z) : M frame_state Z :=
  process reference_frame capture_frame frame_size buffer_delay ;;
  copy_out frame_size ;;
  linear_step ;;
  ret 0.

(** The calls of [process], of [copy_out] and of a [linear_step] that
    runs, for a handle with sample rate [rate] and [channels] channels;
    [linear] tells whether the handle has a linear buffer. *)
Definition process_calls (reference_frame capture_frame : option (list int16_t))
    (frame_size buffer_delay rate : Z) (linear : bool) : list call :=
  [ Call_UpdateFrame RefFrame 0 reference_frame frame_size rate
      kNormalSpeech kVadActive 1;
    Call_UpdateFrame AecFrame 0 capture_frame frame_size rate
      kNormalSpeech kVadActive 1;
    Call_CopyFrom RefAudio RefFrame;
    Call_CopyFrom AecAudio AecFrame;
    Call_SplitIntoFrequencyBands RefAudio;
    Call_AnalyzeRender RefAudio;
    Call_MergeFrequencyBands RefAudio;
    Call_AnalyzeCapture AecAudio;
    Call_SplitIntoFrequencyBands AecAudio;
    Call_HighPassFilter_Process AecAudio true;
    Call_SetAudioBufferDelay buffer_delay;
    Call_ProcessCapture AecAudio (if linear then Some AecLinearAudio else None) false;
    Call_MergeFrequencyBands AecAudio;
    Call_CopyTo AecAudio AecFrame ].

Definition copy_out_calls (frame_size channels : Z) : list call :=
  [ Call_memcpy OutputFrame AecFrame (output_bytes frame_size channels) ].

Definition linear_step_calls : list call :=
  [ Call_UpdateFrame AecFrame 0 None 160 16000 kNormalSpeech kVadActive 1;
    Call_CopyTo AecLinearAudio AecFrame;
    Call_memcpy LinearOutputFrame AecFrame 320 ].

(** The staging frame from which a [linear_step] that runs copies: the
    frame [f], reconfigured and filled from the linear buffer [y]. *)
Definition linear_staging (y : AudioBuffer) (f : AudioFrame) : AudioBuffer * AudioFrame :=
  CopyTo y (UpdateFrame f 0 None 160 16000 kNormalSpeech kVadActive 1).

(** What no step of the pipeline changes between two states: the
    caller's arrays up to the copies into them are dealt with apart;
    here, the rate, the channel count and the presence of the linear
    buffer. *)
Definition same_session (s0 s : frame_state) : Prop :=
  sample_rate (hd s) = sample_rate (hd s0) /\
  num_channels (hd s) = num_channels (hd s0) /\
  is_null (aec_linear_audio (hd s)) = is_null (aec_linear_audio (hd s0)).

(** [m] runs to its end from [s], issues the calls [cs], leaves the
    caller's arrays alone and stays in the session of [s0]. *)
Definition runs_at (s0 : frame_state) (m : M frame_state unit)
    (s : frame_state) (cs : list call) : Prop :=
  exists s', m s = Returns (tt, s') /\
             same_session s0 s' /\
             output s' = output s /\
             linear_output s' = linear_output s /\
             issued s' = issued s ++ cs.

(** What a call hands back: the status, and the contents of the two
    caller arrays after the call. *)
Record frame_result := {
  status : Z;
  output_frame_after : option (list int16_t);
  linear_output_frame_after : option (list int16_t)
}.

(** *** [aec3_process_frame]

    A pointer argument is [None] when null, else the array it points
    to.  [handle] is an address; a non-null address at which no handle
    lives is a dangling pointer. *)
Definition aec3_process_frame
    (handle : option addr)
    (reference_frame capture_frame : option (list int16_t))
    (output_frame linear_output_frame : option (list int16_t))
    (frame_size buffer_delay : Z) : M world frame_result :=
  match handle, reference_frame, capture_frame, output_frame with
  | Some a, Some reference, Some capture, Some out =>
      fun w =>
        match heap w !! a with
        | None => Undefined
        | Some h =>
            match pipeline reference capture frame_size buffer_delay
                    {| hd := h; output := out;
                       linear_output := linear_output_frame; issued := [] |} with
            | Returns (st, s) =>
                Returns ({| status := st;
                            output_frame_after := Some (output s);
                            linear_output_frame_after := linear_output s |},
                         {| heap := <[a := hd s]> (heap w);
                            calls := calls w ++ issued s |})
            | Undefined => Undefined
            end
        end
  | _, _, _, _ =>
      ret {| status := -1;
             output_frame_after := output_frame;
             linear_output_frame_after := linear_output_frame |}
  end.

End Api.

Arguments aec3_handle : clear implicits.
Arguments world : clear implicits.
Arguments frame_state : clear implicits.

(** ** A pass-through stand-in for the WebRTC classes

    A small implementation of [Collaborators] on which the entry points
    can be run: a frame holds the samples in use and its [data()] array
    has [kMaxDataSizeSamples] slots, the unused ones silent; a buffer is
    a sample array; the engine passes the capture signal through
    unchanged, hands its first 160 samples to the linear output, and
    remembers the delays it was given. *)
Module Loopback.

Definition kMaxDataSizeSamples : nat := 3840.

Definition silence : int16_t := (Byte.x00, Byte.x00).
Definition tone : int16_t := (Byte.x34, Byte.x12).
Definition mark : int16_t := (Byte.xff, Byte.x7f).

Definition fit (l : list int16_t) : list int16_t :=
  take kMaxDataSizeSamples (l ++ replicate kMaxDataSizeSamples silence).

Definition collaborators : Collaborators :=
  {| EchoControl := list Z;
     HighPassFilter := unit;
     AudioBuffer := list int16_t;
     AudioFrame := list int16_t;
     default_config := Profile.sample_defaults;
     Factory_Create := fun _ _ _ _ => [];
     HighPassFilter_new := fun _ _ => tt;
     AudioBuffer_new := fun _ _ _ _ _ _ => [];
     AudioFrame_new := [];
     UpdateFrame := fun _ _ samples samples_per_channel _ _ _ channels =>
       match samples with
       | Some l => take (Z.to_nat (samples_per_channel * channels)) l
       | None => []
       end;
     data := fit;
     CopyFrom := fun _ f => f;
     CopyTo := fun b _ => (b, b);
     SplitIntoFrequencyBands := fun b => b;
     MergeFrequencyBands := fun b => b;
     AnalyzeRender := fun e b => (e, b);
     AnalyzeCapture := fun e b => (e, b);
     SetAudioBufferDelay := fun e d => d :: e;
     ProcessCapture := fun e b _ => (e, b);
     ProcessCapture_linear := fun e b _ _ => (e, b, take 160 b);
     HighPassFilter_Process := fun hp b _ => (hp, b) |}.

Definition empty_world : world collaborators := {| heap := ∅; calls := [] |}.

(** A session configuration: 16 kHz mono, maximum suppression. *)
Definition config (export_linear : bool) : aec3_config_t.t :=
  {| aec3_config_t.sample_rate := 16000;
     aec3_config_t.num_channels := 1;
     aec3_config_t.export_linear := export_linear;
     aec3_config_t.suppression_level := F32.lit 1.0 |}.

Definition returned {A} (o : outcome A) (otherwise : A) : A :=
  match o with
  | Returns a => a
  | Undefined => otherwise
  end.

(** The handle and the world after one [aec3_create] in the empty
    world. *)
Definition created (export_linear : bool) : option addr * world collaborators :=
  returned (aec3_create (Some (config export_linear)) empty_world)
           (None, empty_world).

(** The handle object [aec3_create] builds. *)
Definition new_handle (export_linear : bool) : aec3_handle collaborators :=
  {| echo_controller := [] : @EchoControl collaborators;
     hp_filter := tt : @HighPassFilter collaborators;
     ref_audio := [] : @AudioBuffer collaborators;
     aec_audio := [] : @AudioBuffer collaborators;
     aec_linear_audio :=
       if export_linear then Some ([] : @AudioBuffer collaborators) else None;
     ref_frame := [] : @AudioFrame collaborators;
     aec_frame := [] : @AudioFrame collaborators;
     sample_rate := 16000;
     num_channels := 1 |}.

(** Arrays of [n] samples. *)
Definition samples (n : nat) (v : int16_t) : list int16_t := replicate n v.

(** One frame on a fresh session: 160 samples of tone on both inputs,
    an output array of 160 samples, and a linear output array, when
    given, of 320 marked samples. *)
Definition first_frame (export_linear with_linear_array : bool)
    (frame_size buffer_delay : Z) : outcome (frame_result * world collaborators) :=
  aec3_process_frame (fst (created export_linear))
    (Some (samples 160 tone)) (Some (samples 160 tone))
    (Some (samples 160 silence))
    (if with_linear_array then Some (samples 320 mark) else None)
    frame_size buffer_delay (snd (created export_linear)).

Definition failed : frame_result * world collaborators :=
  ({| status := -1; output_frame_after := None; linear_output_frame_after := None |},
   empty_world).

End Loopback.

(** * Properties *)

(** ** Binary32: comparisons agree with exact values *)
Module F32Facts.
Import F32.

Lemma digits2_pos_bounds (m : positive) :
  2 ^ (Z.pos (digits2_pos m) - 1) <= Z.pos m < 2 ^ Z.pos (digits2_pos m).
Proof.
  induction m as [m IH | m IH |]; cbn [digits2_pos].
  - rewrite Pos2Z.inj_succ, (Pos2Z.inj_xI m).
    replace (Z.succ (Z.pos (digits2_pos m)) - 1) with (Z.succ (Z.pos (digits2_pos m) - 1)) by lia.
    rewrite !Z.pow_succ_r by lia. lia.
  - rewrite Pos2Z.inj_succ, (Pos2Z.inj_xO m).
    replace (Z.succ (Z.pos (digits2_pos m)) - 1) with (Z.succ (Z.pos (digits2_pos m) - 1)) by lia.
    rewrite !Z.pow_succ_r by lia. lia.
  - cbn. lia.
Qed.

(** What validity says of a finite datum: the exponent is in range, the
    mantissa has at most 24 bits, and exactly 24 unless the exponent is
    the least one. *)
Lemma valid_finite (s : bool) (m : positive) (e : Z) :
  valid (S754_finite s m e) = true ->
  -149 <= e <= 104 /\ Z.pos m < 2 ^ 24 /\ (-149 < e -> 2 ^ 23 <= Z.pos m).
Proof.
  unfold valid, valid_binary, bounded, canonical_mantissa, fexp, emin, prec, emax.
  intros Hv. apply andb_prop in Hv as [Hc He].
  apply Z.eqb_eq in Hc. apply Z.leb_le in He.
  pose proof (digits2_pos_bounds m) as [Hlo Hhi].
  set (d := Z.pos (digits2_pos m)) in *.
  assert (Hd : d <= 24) by lia.
  split; [lia |]. split.
  - eapply Z.lt_le_trans; [exact Hhi |]. apply Z.pow_le_mono_r; lia.
  - intros Hlt. assert (d = 24) as Hd24 by lia. rewrite Hd24 in Hlo. exact Hlo.
Qed.

Lemma pow2_pos (k : Z) : 0 <= k -> 0 < 2 ^ k.
Proof. intros. apply Z.pow_pos_nonneg; lia. Qed.

(** Magnitudes of valid data are ordered by exponent first. *)
Lemma magnitude_lt (s1 s2 : bool) (m1 m2 : positive) (e1 e2 : Z) :
  valid (S754_finite s1 m1 e1) = true ->
  valid (S754_finite s2 m2 e2) = true ->
  e1 < e2 ->
  Z.pos m1 * 2 ^ (e1 + 149) < Z.pos m2 * 2 ^ (e2 + 149).
Proof.
  intros H1 H2 Hlt.
  apply valid_finite in H1 as (He1 & Hm1 & _).
  apply valid_finite in H2 as (He2 & _ & Hm2).
  specialize (Hm2 ltac:(lia)).
  replace (e2 + 149) with ((e1 + 149) + (e2 - e1)) by lia.
  rewrite (Z.pow_add_r 2 (e1 + 149) (e2 - e1)) by lia.
  pose proof (pow2_pos (e1 + 149) ltac:(lia)) as Hp.
  assert (Hq : 2 ^ 1 <= 2 ^ (e2 - e1)) by (apply Z.pow_le_mono_r; lia).
  change (2 ^ 1) with 2 in Hq. change (2 ^ 24) with 16777216 in Hm1.
  change (2 ^ 23) with 8388608 in Hm2.
  set (P := 2 ^ (e1 + 149)) in *. set (R := 2 ^ (e2 - e1)) in *.
  assert (Z.pos m1 * P < 16777216 * P) by (apply Z.mul_lt_mono_pos_r; lia).
  assert (2 * (Z.pos m2 * P) <= R * (Z.pos m2 * P)) by (apply Z.mul_le_mono_nonneg_r; nia).
  nia.
Qed.

Lemma magnitude_compare (m1 m2 : positive) (k : Z) :
  0 <= k ->
  (Z.pos m1 * 2 ^ k ?= Z.pos m2 * 2 ^ k) = Pos.compare_cont Eq m1 m2.
Proof.
  intros Hk. pose proof (pow2_pos k Hk).
  rewrite <- Zmult_compare_compat_r by lia. reflexivity.
Qed.

(** The comparison of two valid data that are neither infinite nor NaN
    is the comparison of their exact values. *)
Lemma compare_scaled (x y : float) :
  valid x = true -> valid y = true ->
  finite_or_zero x = true -> finite_or_zero y = true ->
  SFcompare x y = Some (scaled x ?= scaled y).
Proof.
  intros Hx Hy Fx Fy.
  destruct x as [sx | sx | | sx mx ex]; try discriminate;
  destruct y as [sy | sy | | sy my ey]; try discriminate.
  - reflexivity.
  - cbn [SFcompare scaled].
    pose proof (valid_finite _ _ _ Hy) as (He & _).
    pose proof (pow2_pos (ey + 149) ltac:(lia)).
    destruct sy; f_equal; symmetry.
    + apply Z.compare_gt_iff. nia.
    + apply Z.compare_lt_iff. nia.
  - cbn [SFcompare scaled].
    pose proof (valid_finite _ _ _ Hx) as (He & _).
    pose proof (pow2_pos (ex + 149) ltac:(lia)).
    destruct sx; f_equal; symmetry.
    + apply Z.compare_lt_iff. nia.
    + apply Z.compare_gt_iff. nia.
  - pose proof (valid_finite _ _ _ Hx) as (Hex & _).
    pose proof (valid_finite _ _ _ Hy) as (Hey & _).
    pose proof (pow2_pos (ex + 149) ltac:(lia)) as Hpx.
    pose proof (pow2_pos (ey + 149) ltac:(lia)) as Hpy.
    cbn [SFcompare scaled]. f_equal.
    destruct sx, sy.
    + (* both negative *)
      destruct (Z.compare_spec ex ey) as [Heq | Hlt | Hgt].
      * subst ey. rewrite <- (magnitude_compare mx my (ex + 149)) by lia.
        rewrite <- Z.compare_antisym, <- Z.compare_opp. f_equal; lia.
      * pose proof (magnitude_lt _ _ _ _ _ _ Hx Hy Hlt).
        symmetry. apply Z.compare_gt_iff. lia.
      * pose proof (magnitude_lt _ _ _ _ _ _ Hy Hx ltac:(lia)).
        symmetry. apply Z.compare_lt_iff. lia.
    + symmetry. apply Z.compare_lt_iff. nia.
    + symmetry. apply Z.compare_gt_iff. nia.
    + destruct (Z.compare_spec ex ey) as [Heq | Hlt | Hgt].
      * subst ey. rewrite <- (magnitude_compare mx my (ex + 149)) by lia.
        f_equal; lia.
      * pose proof (magnitude_lt _ _ _ _ _ _ Hx Hy Hlt).
        symmetry. apply Z.compare_lt_iff. lia.
      * pose proof (magnitude_lt _ _ _ _ _ _ Hy Hx ltac:(lia)).
        symmetry. apply Z.compare_gt_iff. lia.
Qed.

Lemma leb_scaled (x y : float) :
  valid x = true -> valid y = true ->
  finite_or_zero x = true -> finite_or_zero y = true ->
  SFleb x y = (scaled x <=? scaled y).
Proof.
  intros Hx Hy Fx Fy. unfold SFleb, Z.leb.
  rewrite (compare_scaled x y Hx Hy Fx Fy).
  destruct (scaled x ?= scaled y); reflexivity.
Qed.

Lemma ltb_scaled (x y : float) :
  valid x = true -> valid y = true ->
  finite_or_zero x = true -> finite_or_zero y = true ->
  SFltb x y = (scaled x <? scaled y).
Proof.
  intros Hx Hy Fx Fy. unfold SFltb, Z.ltb.
  rewrite (compare_scaled x y Hx Hy Fx Fy).
  destruct (scaled x ?= scaled y); reflexivity.
Qed.

(** From one half upwards the binary32 data are spaced [2^-24] apart or
    more: their scaled values are multiples of [2^125]. *)
Lemma scaled_grid (x : float) :
  valid x = true -> 2 ^ 148 <= scaled x ->
  exists k, scaled x = k * 2 ^ 125.
Proof.
  intros Hv Hge. destruct x as [s | s | | s m e];
    try (cbn in Hge; lia).
  pose proof (valid_finite _ _ _ Hv) as (He & Hm & _).
  pose proof (pow2_pos (e + 149) ltac:(lia)) as Hp.
  cbn [scaled] in *. destruct s; [lia |].
  destruct (Z_lt_le_dec e (-24)) as [Hlt | Hle].
  - exfalso.
    assert (Hq : 2 ^ (e + 149) <= 2 ^ 124) by (apply Z.pow_le_mono_r; lia).
    change (2 ^ 24) with 16777216 in Hm.
    assert (Z.pos m * 2 ^ (e + 149) < 16777216 * 2 ^ (e + 149))
      by (apply Z.mul_lt_mono_pos_r; lia).
    assert (16777216 * 2 ^ (e + 149) <= 16777216 * 2 ^ 124)
      by (apply Z.mul_le_mono_nonneg_l; lia).
    change (16777216 * 2 ^ 124) with (2 ^ 148) in *. lia.
  - exists (Z.pos m * 2 ^ (e + 24)).
    replace (e + 149) with ((e + 24) + 125) by lia.
    rewrite (Z.pow_add_r 2 (e + 24) 125) by lia. lia.
Qed.

Lemma valid_lit_0_0 : valid (lit 0.0) = true. Proof. reflexivity. Qed.
Lemma valid_lit_0_5 : valid (lit 0.5) = true. Proof. reflexivity. Qed.
Lemma valid_lit_0_8 : valid (lit 0.8) = true. Proof. reflexivity. Qed.
Lemma valid_lit_1_0 : valid (lit 1.0) = true. Proof. reflexivity. Qed.

(** [x > 0.0f] holds exactly when the value of [x] exceeds zero. *)
Lemma gt_lit_0_0 (x : float) :
  valid x = true -> gt x (lit 0.0) = gtQ x 0.
Proof.
  intros Hv. destruct x as [s | s | | s m e]; try reflexivity.
  - destruct s; reflexivity.
  - unfold gt. rewrite ltb_scaled by (reflexivity || assumption).
    unfold gtQ, value, Qle_bool. cbn [Qnum Qden].
    change (scaled (lit 0.0)) with 0.
    destruct (Z.ltb_spec 0 (scaled (S754_finite s m e)));
      destruct (Z.leb_spec (scaled (S754_finite s m e) * 1) (0 * Z.pos (2 ^ 149)));
      try reflexivity; lia.
Qed.

(** [x < 1.0f] holds exactly when the value of [x] is below one. *)
Lemma lt_lit_1_0 (x : float) :
  valid x = true -> lt x (lit 1.0) = ltQ x 1.
Proof.
  intros Hv. destruct x as [s | s | | s m e]; try reflexivity.
  - destruct s; reflexivity.
  - unfold lt. rewrite ltb_scaled by (reflexivity || assumption).
    unfold ltQ, value, Qle_bool. cbn [Qnum Qden].
    change (scaled (lit 1.0)) with (2 ^ 149).
    change (Z.pos (2 ^ 149)) with (2 ^ 149).
    destruct (Z.ltb_spec (scaled (S754_finite s m e)) (2 ^ 149));
      destruct (Z.leb_spec (1 * 2 ^ 149) (scaled (S754_finite s m e) * 1));
      try reflexivity; lia.
Qed.

(** [x >= 0.5f] holds exactly when the value of [x] is at least one
    half. *)
Lemma ge_lit_0_5 (x : float) :
  valid x = true -> ge x (lit 0.5) = geQ x 0.5.
Proof.
  intros Hv. destruct x as [s | s | | s m e]; try reflexivity.
  - destruct s; reflexivity.
  - unfold ge. rewrite leb_scaled by (reflexivity || assumption).
    unfold geQ, value, Qle_bool. cbn [Qnum Qden].
    change (scaled (lit 0.5)) with (2 ^ 148).
    change (Z.pos (2 ^ 149)) with (2 * 2 ^ 148).
    destruct (Z.leb_spec (2 ^ 148) (scaled (S754_finite s m e)));
      destruct (Z.leb_spec (5 * (2 * 2 ^ 148)) (scaled (S754_finite s m e) * 10));
      try reflexivity; lia.
Qed.

(** [x >= 0.8f] holds exactly when the value of [x] is at least the
    decimal 0.8: the literal is the least binary32 datum that is not
    below 0.8. *)
Lemma ge_lit_0_8 (x : float) :
  valid x = true -> ge x (lit 0.8) = geQ x 0.8.
Proof.
  intros Hv. destruct x as [s | s | | s m e]; try reflexivity.
  - destruct s; reflexivity.
  - unfold ge. rewrite leb_scaled by (reflexivity || assumption).
    unfold geQ, value, Qle_bool. cbn [Qnum Qden].
    change (scaled (lit 0.8)) with (13421773 * 2 ^ 125).
    change (Z.pos (2 ^ 149)) with (16777216 * 2 ^ 125).
    set (sx := scaled (S754_finite s m e)).
    assert (Hp : 0 < 2 ^ 125) by (apply pow2_pos; lia).
    destruct (Z_lt_le_dec sx (2 ^ 148)) as [Hlow | Hhigh].
    + change (2 ^ 148) with (8388608 * 2 ^ 125) in Hlow.
      destruct (Z.leb_spec (13421773 * 2 ^ 125) sx);
        destruct (Z.leb_spec (8 * (16777216 * 2 ^ 125)) (sx * 10));
        try reflexivity; lia.
    + destruct (scaled_grid _ Hv Hhigh) as [k Hk]. fold sx in Hk. rewrite Hk.
      destruct (Z.leb_spec (13421773 * 2 ^ 125) (k * 2 ^ 125));
        destruct (Z.leb_spec (8 * (16777216 * 2 ^ 125)) (k * 2 ^ 125 * 10));
        try reflexivity; exfalso; nia.
Qed.

(** *** The order of the comparison operators

    These hold of any data, canonical or not: the comparison is
    lexicographic on sign, exponent and mantissa. *)
Ltac order_cases :=
  repeat match goal with
  | |- context [Pos.compare_cont Eq ?a ?b] =>
      change (Pos.compare_cont Eq a b) with (Pos.compare a b);
      destruct (Pos.compare_spec a b)
  | H : context [Pos.compare_cont Eq ?a ?b] |- _ =>
      change (Pos.compare_cont Eq a b) with (Pos.compare a b) in H;
      destruct (Pos.compare_spec a b)
  | |- context [Z.compare ?a ?b] => destruct (Z.compare_spec a b)
  | H : context [Z.compare ?a ?b] |- _ => destruct (Z.compare_spec a b)
  end;
  cbn in *; try reflexivity; try discriminate; try (exfalso; lia).

Lemma le_trans (a b c : float) :
  le a b = true -> le b c = true -> le a c = true.
Proof.
  unfold le, SFleb, SFcompare.
  destruct a as [[] | [] | | [] ma ea], b as [[] | [] | | [] mb eb],
    c as [[] | [] | | [] mc ec];
    intros Hab Hbc; try reflexivity; try discriminate; order_cases.
Qed.

Lemma lt_le_trans (a b c : float) :
  lt a b = true -> le b c = true -> lt a c = true.
Proof.
  unfold lt, le, SFltb, SFleb, SFcompare.
  destruct a as [[] | [] | | [] ma ea], b as [[] | [] | | [] mb eb],
    c as [[] | [] | | [] mc ec];
    intros Hab Hbc; try reflexivity; try discriminate; order_cases.
Qed.

Lemma le_refl (a : float) : is_nan a = false -> le a a = true.
Proof.
  unfold le, SFleb, SFcompare.
  destruct a as [[] | [] | | [] ma ea]; intros Hn;
    try reflexivity; try discriminate;
    rewrite Z.compare_refl; change (Pos.compare_cont Eq ma ma) with (Pos.compare ma ma);
    rewrite Pos.compare_refl; reflexivity.
Qed.

Lemma le_not_nan_r (a b : float) : le a b = true -> is_nan b = false.
Proof.
  unfold le, SFleb, SFcompare.
  destruct a as [[] | [] | | [] ma ea], b as [[] | [] | | [] mb eb];
    intros Hab; try reflexivity; discriminate.
Qed.

Lemma le_not_nan_l (a b : float) : le a b = true -> is_nan a = false.
Proof.
  unfold le, SFleb, SFcompare.
  destruct a as [[] | [] | | [] ma ea], b as [[] | [] | | [] mb eb];
    intros Hab; try reflexivity; discriminate.
Qed.

(** Of two data that are not NaN, one is below the other or the other
    is at most the one. *)
Lemma lt_or_le (a b : float) :
  is_nan a = false -> is_nan b = false -> lt a b = false -> le b a = true.
Proof.
  unfold lt, le, SFltb, SFleb, SFcompare.
  destruct a as [[] | [] | | [] ma ea], b as [[] | [] | | [] mb eb];
    intros Ha Hb Hab; try reflexivity; try discriminate; order_cases.
Qed.

Lemma lt_not_le (a b : float) : lt a b = true -> le b a = false.
Proof.
  unfold lt, le, SFltb, SFleb, SFcompare.
  destruct a as [[] | [] | | [] ma ea], b as [[] | [] | | [] mb eb];
    intros Hab; try reflexivity; try discriminate; order_cases.
Qed.

(** Every literal of the source, read through [lit], is the binary32
    datum nearest to its decimal. *)
Lemma literals_nearest :
  forallb (fun q => nearest q (lit q))
    [0.0; 1.0; 0.8; 0.5; 0.1; 0.2; 0.05; 0.08; 8.0; 4.0; 0.00001; 0.0005;
     0.005; 5.0; 0.3; 0.06; 0.09; 6.0; 3.0]%Q = true.
Proof. vm_compute. reflexivity. Qed.

End F32Facts.

(** ** Profile selection *)
Module ProfileFacts.
Import EchoCanceller3Config Profile.

(** Lines 34 and 35 in one test: a level strictly between zero and one
    is kept, anything else becomes 1.0. *)
Lemma effective_level_eq (level : float) :
  effective_level level =
  if F32.gt level (F32.lit 0.0) && F32.lt level (F32.lit 1.0)
  then level else F32.lit 1.0.
Proof.
  unfold effective_level, clamp, substitute_default, F32.max, F32.min.
  destruct (F32.gt level (F32.lit 0.0)) eqn:Hgt; cbn [andb].
  - destruct (F32.lt level (F32.lit 1.0)) eqn:Hlt.
    + unfold F32.gt in Hgt. unfold F32.lt at 1. rewrite Hgt. reflexivity.
    + reflexivity.
  - reflexivity.
Qed.

Lemma effective_level_valid (level : float) :
  F32.valid level = true -> F32.valid (effective_level level) = true.
Proof.
  intros Hv. rewrite effective_level_eq.
  destruct (F32.gt level (F32.lit 0.0) && F32.lt level (F32.lit 1.0));
    [assumption | reflexivity].
Qed.

(** The branch [configure] takes, by tests on the level the caller
    passed. *)
Lemma configure_branch (config : aec3_config_t.t) (defaults : t) :
  let level := aec3_config_t.suppression_level config in
  let base :=
    set_filter_export_linear_aec_output (aec3_config_t.export_linear config) defaults in
  configure config defaults =
  if negb (F32.gt level (F32.lit 0.0) && F32.lt level (F32.lit 1.0))
     || F32.ge level (F32.lit 0.8)
  then maximum base
  else if F32.ge level (F32.lit 0.5) then medium base else base.
Proof.
  cbv zeta. unfold configure. rewrite effective_level_eq.
  destruct (F32.gt _ (F32.lit 0.0) && F32.lt _ (F32.lit 1.0)); reflexivity.
Qed.

(** The tests against rationals, on data that are neither infinite nor
    NaN, as integer inequalities on scaled values. *)
Lemma Q_tests (x : float) (q : Q) :
  F32.finite_or_zero x = true ->
  F32.geQ x q = (Qnum q * 2 ^ 149 <=? F32.scaled x * Z.pos (Qden q)) /\
  F32.leQ x q = (F32.scaled x * Z.pos (Qden q) <=? Qnum q * 2 ^ 149) /\
  F32.gtQ x q = (Qnum q * 2 ^ 149 <? F32.scaled x * Z.pos (Qden q)) /\
  F32.ltQ x q = (F32.scaled x * Z.pos (Qden q) <? Qnum q * 2 ^ 149).
Proof.
  intros Hf. rewrite !Z.ltb_antisym.
  destruct x as [s | s | | s m e]; try discriminate;
    unfold F32.geQ, F32.leQ, F32.gtQ, F32.ltQ, F32.value, Qle_bool;
    cbn [Qnum Qden]; repeat split; reflexivity.
Qed.

(** Case analysis on a valid level: the float tests become tests on the
    value; NaN and the infinities are settled by evaluation, the other
    data through their scaled value, on which every test is a linear
    inequality in the scaled value and [2^149]. *)
Ltac by_value level Hv :=
  rewrite ?(F32Facts.gt_lit_0_0 level Hv), ?(F32Facts.lt_lit_1_0 level Hv),
          ?(F32Facts.ge_lit_0_8 level Hv), ?(F32Facts.ge_lit_0_5 level Hv) in *;
  let Hf := fresh "Hf" in
  destruct (F32.finite_or_zero level) eqn:Hf;
  [ pose proof (Q_tests level 0 Hf) as (? & ? & ? & ?);
    pose proof (Q_tests level 0.5 Hf) as (? & ? & ? & ?);
    pose proof (Q_tests level 0.8 Hf) as (? & ? & ? & ?);
    pose proof (Q_tests level 1 Hf) as (? & ? & ? & ?);
    cbn [Qnum Qden] in *;
    pose proof (F32Facts.pow2_pos 149 ltac:(lia));
    generalize dependent (2 ^ 149); intros D; intros
  | destruct level as [? | [] | | ? ? ?]; try discriminate Hf ].

Ltac use_tests level :=
  repeat match goal with
         | H : ?f level ?q = _ |- context [?f level ?q] => rewrite H
         end.

Ltac split_tests :=
  repeat match goal with
  | |- context [Z.leb ?a ?b] => destruct (Z.leb_spec a b)
  | |- context [Z.ltb ?a ?b] => destruct (Z.ltb_spec a b)
  end.

Ltac settle :=
  repeat (intros; match goal with
          | |- _ /\ _ => split
          | |- _ = _ => reflexivity
          | H : false = true |- _ => discriminate H
          | H : true = false |- _ => discriminate H
          end).

(** C1.  The profile is tiered into three bands.  A level that, after
    the substitution of 1.0 for a non-positive one and the clamp, is at
    least 0.8 yields the maximum profile: mask thresholds 0.1, 0.2,
    0.05 and 0.08, ERLE ceilings 8.0 and 4.0, leakage 0.00001, error
    floor 0.0005, gain during echo 0.1, anti-howling gain 0.005 and
    audibility thresholds 5.0.  A level in [0.5, 0.8) yields the medium
    profile, which overrides the mask thresholds, the ERLE ceilings and
    the gain during echo only, and leaves the filter constants, the
    anti-howling gain and the audibility thresholds at the engine
    defaults.  A level in (0.0, 0.5) overrides nothing: apart from the
    linear-output flag, which every band copies from the caller's
    configuration, the engine gets its defaults.  Every level falls into
    exactly one band. *)
Theorem profile_bands (config : aec3_config_t.t) (defaults : t) :
  let level := aec3_config_t.suppression_level config in
  let c := configure config defaults in
  let lf := mask_lf (normal_tuning (suppressor c)) in
  let hf := mask_hf (normal_tuning (suppressor c)) in
  let hb := high_bands_suppression (suppressor c) in
  let in_maximum := F32.geQ (effective_level level) 0.8 in
  let in_medium := F32.geQ level 0.5 && F32.ltQ level 0.8 in
  let in_default := F32.gtQ level 0 && F32.ltQ level 0.5 in
  F32.valid level = true ->
  (in_maximum = true ->
     enr_transparent lf = F32.lit 0.1 /\ enr_suppress lf = F32.lit 0.2 /\
     enr_transparent hf = F32.lit 0.05 /\ enr_suppress hf = F32.lit 0.08 /\
     max_l (erle c) = F32.lit 8.0 /\ max_h (erle c) = F32.lit 4.0 /\
     leakage_converged (main (filter c)) = F32.lit 0.00001 /\
     error_floor (main (filter c)) = F32.lit 0.0005 /\
     max_gain_during_echo hb = F32.lit 0.1 /\
     anti_howling_gain hb = F32.lit 0.005 /\
     audibility_threshold_lf (echo_audibility c) = F32.lit 5.0 /\
     audibility_threshold_mf (echo_audibility c) = F32.lit 5.0 /\
     audibility_threshold_hf (echo_audibility c) = F32.lit 5.0) /\
  (in_medium = true ->
     enr_transparent lf = F32.lit 0.2 /\ enr_suppress lf = F32.lit 0.3 /\
     enr_transparent hf = F32.lit 0.06 /\ enr_suppress hf = F32.lit 0.09 /\
     max_l (erle c) = F32.lit 6.0 /\ max_h (erle c) = F32.lit 3.0 /\
     max_gain_during_echo hb = F32.lit 0.3 /\
     main (filter c) = main (filter defaults) /\
     anti_howling_gain hb =
       anti_howling_gain (high_bands_suppression (suppressor defaults)) /\
     echo_audibility c = echo_audibility defaults) /\
  (in_default = true ->
     c = set_filter_export_linear_aec_output
           (aec3_config_t.export_linear config) defaults) /\
  export_linear_aec_output (filter c) = aec3_config_t.export_linear config /\
  (in_maximum = true /\ in_medium = false /\ in_default = false \/
   in_maximum = false /\ in_medium = true /\ in_default = false \/
   in_maximum = false /\ in_medium = false /\ in_default = true).
Proof.
  cbv zeta. intros Hv. rewrite configure_branch, effective_level_eq.
  set (level := aec3_config_t.suppression_level config) in *.
  set (base := set_filter_export_linear_aec_output _ defaults).
  by_value level Hv.
  - use_tests level. set (sx := F32.scaled level) in *.
    destruct (Z.ltb_spec (0 * D) (sx * 1)), (Z.ltb_spec (sx * 1) (1 * D));
      cbn [andb negb orb]; use_tests level;
      change (F32.geQ (F32.lit 1.0) 0.8) with true;
      repeat match goal with H : _ level _ = _ |- _ => clear H end;
      split_tests; cbn [andb negb orb]; try (exfalso; lia);
      (split; [| split; [| split; [| split]]]); settle;
      first [ left; settle; fail | right; left; settle; fail | right; right; settle; fail ].
  - cbn [F32.geQ F32.ltQ F32.gtQ andb negb orb].
    change (F32.geQ (F32.lit 1.0) 0.8) with true.
    (split; [| split; [| split; [| split]]]); settle. left; settle.
  - cbn [F32.geQ F32.ltQ F32.gtQ andb negb orb].
    change (F32.geQ (F32.lit 1.0) 0.8) with true.
    (split; [| split; [| split; [| split]]]); settle. left; settle.
  - cbn [F32.geQ F32.ltQ F32.gtQ andb negb orb].
    change (F32.geQ (F32.lit 1.0) 0.8) with true.
    (split; [| split; [| split; [| split]]]); settle. left; settle.
Qed.

Lemma profile_bands_witness :
  max_l (erle (configure (with_level (F32.lit 0.9)) sample_defaults)) = F32.lit 8.0 /\
  max_l (erle (configure (with_level (F32.lit 0.6)) sample_defaults)) = F32.lit 6.0 /\
  configure (with_level (F32.lit 0.3)) sample_defaults = sample_defaults.
Proof.
  split; [| split].
  - pose proof (profile_bands (with_level (F32.lit 0.9)) sample_defaults eq_refl)
      as (Hmax & _).
    apply (Hmax eq_refl).
  - pose proof (profile_bands (with_level (F32.lit 0.6)) sample_defaults eq_refl)
      as (_ & Hmed & _).
    apply (Hmed eq_refl).
  - pose proof (profile_bands (with_level (F32.lit 0.3)) sample_defaults eq_refl)
      as (_ & _ & Hdef & _).
    apply (Hdef eq_refl).
Defined.

(** C2.  A level that is at most zero is replaced by 1.0, and a level
    above one is clamped to 1.0; the replacement comes first and the
    clamp second.  In both cases the maximum branch is taken. *)
Theorem sentinel_then_clamp (config : aec3_config_t.t) (defaults : t) :
  let level := aec3_config_t.suppression_level config in
  let base :=
    set_filter_export_linear_aec_output (aec3_config_t.export_linear config) defaults in
  F32.valid level = true ->
  effective_level level = clamp (substitute_default level) /\
  (F32.leQ level 0 = true ->
     substitute_default level = F32.lit 1.0 /\
     effective_level level = F32.lit 1.0 /\
     configure config defaults = maximum base) /\
  (F32.gtQ level 1 = true ->
     substitute_default level = level /\
     effective_level level = F32.lit 1.0 /\
     configure config defaults = maximum base).
Proof.
  cbv zeta. intros Hv. split; [reflexivity |].
  rewrite configure_branch, effective_level_eq. unfold substitute_default.
  set (level := aec3_config_t.suppression_level config) in *.
  set (base := set_filter_export_linear_aec_output _ defaults).
  by_value level Hv.
  - use_tests level. set (sx := F32.scaled level) in *.
    repeat match goal with H : _ level _ = _ |- _ => clear H end.
    split_tests; cbn [andb negb orb]; try (exfalso; lia); settle;
      exfalso; lia.
  - cbn [F32.leQ F32.geQ F32.ltQ F32.gtQ andb negb orb]. settle.
  - cbn [F32.leQ F32.geQ F32.ltQ F32.gtQ andb negb orb]. settle.
  - cbn [F32.leQ F32.geQ F32.ltQ F32.gtQ andb negb orb]. settle.
Qed.

Lemma sentinel_then_clamp_witness :
  configure (with_level (F32.lit 0.0)) sample_defaults = maximum sample_defaults /\
  configure (with_level (F32.lit 2.5)) sample_defaults = maximum sample_defaults.
Proof.
  split.
  - pose proof (sentinel_then_clamp (with_level (F32.lit 0.0)) sample_defaults eq_refl)
      as (_ & Hle & _).
    apply (Hle eq_refl).
  - pose proof (sentinel_then_clamp (with_level (F32.lit 2.5)) sample_defaults eq_refl)
      as (_ & _ & Hgt).
    apply (Hgt eq_refl).
Defined.

(** The claim of C8 fails as it stands.  A level of 0.0 is at most a
    level of 0.6, yet 0.0 selects the maximum profile by the sentinel
    rule and 0.6 the medium one, whose thresholds are higher. *)
Lemma monotone_over_all_levels_fails :
  ~ (forall (defaults : t) (a1 a2 : float),
       F32.valid a1 = true -> F32.valid a2 = true ->
       F32.le a1 a2 = true ->
       at_least_as_aggressive (configure (with_level a2) defaults)
                              (configure (with_level a1) defaults) = true).
Proof.
  intros Hall.
  specialize (Hall sample_defaults (F32.lit 0.0) (F32.lit 0.6) eq_refl eq_refl eq_refl).
  vm_compute in Hall. discriminate Hall.
Qed.

Lemma mild_facts (defaults : t) :
  mild defaults = true ->
  let lf := mask_lf (normal_tuning (suppressor defaults)) in
  let hf := mask_hf (normal_tuning (suppressor defaults)) in
  F32.le (F32.lit 0.2) (enr_transparent lf) = true /\
  F32.le (F32.lit 0.3) (enr_suppress lf) = true /\
  F32.le (F32.lit 0.06) (enr_transparent hf) = true /\
  F32.le (F32.lit 0.09) (enr_suppress hf) = true /\
  F32.le (F32.lit 5.0) (audibility_threshold_lf (echo_audibility defaults)) = true /\
  F32.le (F32.lit 5.0) (audibility_threshold_mf (echo_audibility defaults)) = true /\
  F32.le (F32.lit 5.0) (audibility_threshold_hf (echo_audibility defaults)) = true /\
  F32.le (max_l (erle defaults)) (F32.lit 6.0) = true /\
  F32.le (max_h (erle defaults)) (F32.lit 3.0) = true.
Proof.
  unfold mild. cbv zeta. intros Hm.
  repeat (apply andb_prop in Hm as [Hm ?]).
  repeat split; assumption.
Qed.

(** One comparison of [at_least_as_aggressive]: between two literals by
    evaluation, against a default through [mild]. *)
Ltac compare_fields :=
  unfold F32.ge;
  first
    [ reflexivity
    | assumption
    | apply F32Facts.le_refl;
      first [ eapply F32Facts.le_not_nan_r; eassumption
            | eapply F32Facts.le_not_nan_l; eassumption ]
    | eapply F32Facts.le_trans; [| eassumption]; reflexivity
    | eapply F32Facts.le_trans; [eassumption |]; reflexivity ].

(** C8, amended.  Over strictly positive levels the profile is
    monotonically more aggressive, provided the engine defaults are no
    more aggressive than the values the branches assign; and every
    value a branch assigns is finite and lies in the stated range:
    thresholds, gains, leakage and error floor strictly between 0 and
    1, ERLE ceilings strictly between 1 and 10, audibility thresholds
    strictly between 0 and 10. *)
Theorem monotone_over_positive_levels
    (config1 config2 : aec3_config_t.t) (defaults : t) :
  let a1 := aec3_config_t.suppression_level config1 in
  let a2 := aec3_config_t.suppression_level config2 in
  mild defaults = true ->
  F32.gt a1 (F32.lit 0.0) = true ->
  F32.le a1 a2 = true ->
  at_least_as_aggressive (configure config2 defaults)
                         (configure config1 defaults) = true /\
  (F32.ge (effective_level a2) (F32.lit 0.8) = true ->
     maximum_in_range (configure config2 defaults) = true) /\
  (F32.ge (effective_level a2) (F32.lit 0.8) = false ->
   F32.ge (effective_level a2) (F32.lit 0.5) = true ->
     medium_in_range (configure config2 defaults) = true).
Proof.
  cbv zeta. intros Hm Hpos Hle.
  split; [| split;
    [ intros Hmax; unfold configure; rewrite Hmax; reflexivity
    | intros Hmax Hmed; unfold configure; rewrite Hmax, Hmed; reflexivity ]].
  apply mild_facts in Hm. cbv zeta in Hm.
  destruct Hm as (M1 & M2 & M3 & M4 & M5 & M6 & M7 & M8 & M9).
  rewrite !configure_branch.
  set (a1 := aec3_config_t.suppression_level config1) in *.
  set (a2 := aec3_config_t.suppression_level config2) in *.
  assert (Hpos2 : F32.gt a2 (F32.lit 0.0) = true)
    by (unfold F32.gt in *; eapply F32Facts.lt_le_trans; eassumption).
  rewrite Hpos, Hpos2. cbn [andb].
  assert (H8 : F32.ge a1 (F32.lit 0.8) = true -> F32.ge a2 (F32.lit 0.8) = true)
    by (unfold F32.ge; intros; eapply F32Facts.le_trans; eassumption).
  assert (H5 : F32.ge a1 (F32.lit 0.5) = true -> F32.ge a2 (F32.lit 0.5) = true)
    by (unfold F32.ge; intros; eapply F32Facts.le_trans; eassumption).
  assert (H1 : F32.lt a1 (F32.lit 1.0) = false ->
               F32.lt a2 (F32.lit 1.0) = false /\ F32.ge a2 (F32.lit 0.8) = true).
  { intros Hn.
    assert (Hone : F32.le (F32.lit 1.0) a1 = true).
    { apply F32Facts.lt_or_le; [ | reflexivity | exact Hn].
      eapply F32Facts.le_not_nan_l; exact Hle. }
    assert (Hone2 : F32.le (F32.lit 1.0) a2 = true)
      by (eapply F32Facts.le_trans; eassumption).
    split.
    - destruct (F32.lt a2 (F32.lit 1.0)) eqn:Hlt; [| reflexivity].
      apply F32Facts.lt_not_le in Hlt. congruence.
    - unfold F32.ge. eapply F32Facts.le_trans; [| exact Hone2]. reflexivity. }
  destruct (F32.lt a1 (F32.lit 1.0)) eqn:L1.
  - destruct (F32.ge a1 (F32.lit 0.8)) eqn:G8.
    + rewrite (H8 eq_refl), orb_true_r. cbn [negb orb].
      unfold at_least_as_aggressive; cbn.
      repeat (apply andb_true_intro; split); compare_fields.
    + cbn [negb orb].
      destruct (negb (F32.lt a2 (F32.lit 1.0)) || F32.ge a2 (F32.lit 0.8)).
      * destruct (F32.ge a1 (F32.lit 0.5));
          unfold at_least_as_aggressive; cbn;
          repeat (apply andb_true_intro; split); compare_fields.
      * destruct (F32.ge a1 (F32.lit 0.5)) eqn:G5.
        -- rewrite (H5 eq_refl).
           unfold at_least_as_aggressive; cbn;
           repeat (apply andb_true_intro; split); compare_fields.
        -- destruct (F32.ge a2 (F32.lit 0.5));
             unfold at_least_as_aggressive; cbn;
             repeat (apply andb_true_intro; split); compare_fields.
  - destruct (H1 eq_refl) as [L2 G2]. rewrite L2. cbn [negb orb].
    unfold at_least_as_aggressive; cbn.
    repeat (apply andb_true_intro; split); compare_fields.
Qed.

Lemma monotone_over_positive_levels_witness :
  at_least_as_aggressive
    (configure (with_level (F32.lit 0.9)) sample_defaults)
    (configure (with_level (F32.lit 0.3)) sample_defaults) = true.
Proof.
  exact (proj1 (monotone_over_positive_levels
                  (with_level (F32.lit 0.3)) (with_level (F32.lit 0.9))
                  sample_defaults eq_refl eq_refl eq_refl)).
Defined.

End ProfileFacts.

(** ** [memcpy] on sample arrays *)
Module MemFacts.
Import Mem.

Lemma length_bytes_of (l : list int16_t) :
  length (bytes_of l) = (2 * length l)%nat.
Proof. induction l as [| [b0 b1] l IH]; cbn; lia. Qed.

Lemma samples_of_bytes_of (l : list int16_t) : samples_of (bytes_of l) = l.
Proof.
  induction l as [| [b0 b1] l IH]; [reflexivity |].
  change (samples_of (bytes_of ((b0, b1) :: l)))
    with ((b0, b1) :: samples_of (bytes_of l)).
  rewrite IH. reflexivity.
Qed.

Lemma bytes_of_app (l1 l2 : list int16_t) :
  bytes_of (l1 ++ l2) = bytes_of l1 ++ bytes_of l2.
Proof. induction l1 as [| [b0 b1] l1 IH]; cbn; congruence. Qed.

Lemma take_bytes_of (k : nat) (l : list int16_t) :
  take (2 * k) (bytes_of l) = bytes_of (take k l).
Proof.
  revert l. induction k as [| k IH]; intros l; [reflexivity |].
  destruct l as [| [b0 b1] l]; [reflexivity |].
  replace (2 * S k)%nat with (S (S (2 * k))) by lia.
  cbn [bytes_of take]. rewrite IH. reflexivity.
Qed.

Lemma drop_bytes_of (k : nat) (l : list int16_t) :
  drop (2 * k) (bytes_of l) = bytes_of (drop k l).
Proof.
  revert l. induction k as [| k IH]; intros l; [reflexivity |].
  destruct l as [| [b0 b1] l]; [reflexivity |].
  replace (2 * S k)%nat with (S (S (2 * k))) by lia.
  cbn [bytes_of drop]. rewrite IH. reflexivity.
Qed.

(** A copy is defined exactly when its byte count fits both arrays. *)
Lemma memcpy_defined (dst src : list int16_t) (n : Z) :
  0 <= n -> n <= 2 * Z.of_nat (length src) -> n <= 2 * Z.of_nat (length dst) ->
  exists o, memcpy dst src n = Some o.
Proof.
  intros H0 Hs Hd. unfold memcpy, memcpy_bytes.
  rewrite !length_bytes_of.
  destruct (Z.leb_spec 0 n); [| lia].
  destruct (Z.leb_spec n (Z.of_nat (2 * length src))); [| lia].
  destruct (Z.leb_spec n (Z.of_nat (2 * length dst))); [| lia].
  cbn. eauto.
Qed.

Lemma memcpy_undefined (dst src : list int16_t) (n : Z) :
  2 * Z.of_nat (length src) < n \/ 2 * Z.of_nat (length dst) < n ->
  memcpy dst src n = None.
Proof.
  intros Hout. unfold memcpy, memcpy_bytes.
  rewrite !length_bytes_of.
  destruct (Z.leb_spec 0 n); [| reflexivity].
  destruct (Z.leb_spec n (Z.of_nat (2 * length src))); [| reflexivity].
  destruct (Z.leb_spec n (Z.of_nat (2 * length dst))); [| reflexivity].
  lia.
Qed.

(** A copy of [2 * k] bytes moves [k] samples: the first [k] samples of
    the destination become those of the source, the rest stay. *)
Lemma memcpy_samples (dst src : list int16_t) (k : nat) :
  (k <= length src)%nat -> (k <= length dst)%nat ->
  memcpy dst src (2 * Z.of_nat k) = Some (take k src ++ drop k dst).
Proof.
  intros Hs Hd. unfold memcpy, memcpy_bytes.
  rewrite !length_bytes_of.
  destruct (Z.leb_spec 0 (2 * Z.of_nat k)); [| lia].
  destruct (Z.leb_spec (2 * Z.of_nat k) (Z.of_nat (2 * length src))); [| lia].
  destruct (Z.leb_spec (2 * Z.of_nat k) (Z.of_nat (2 * length dst))); [| lia].
  cbn [andb option_map]. f_equal.
  replace (Z.to_nat (2 * Z.of_nat k)) with (2 * k)%nat by lia.
  rewrite take_bytes_of, drop_bytes_of, <- bytes_of_app.
  apply samples_of_bytes_of.
Qed.

(** A defined copy of [2 * k] bytes is the copy of [k] samples. *)
Lemma memcpy_samples_inv (dst src o : list int16_t) (k : nat) :
  memcpy dst src (2 * Z.of_nat k) = Some o ->
  (k <= length src)%nat /\ (k <= length dst)%nat /\
  o = take k src ++ drop k dst.
Proof.
  intros Hm.
  assert (Hb : (k <= length src)%nat /\ (k <= length dst)%nat).
  { destruct (le_lt_dec k (length src)) as [Hs | Hs];
      [destruct (le_lt_dec k (length dst)) as [Hd | Hd]; [auto |] |].
    - rewrite memcpy_undefined in Hm by lia. discriminate.
    - rewrite memcpy_undefined in Hm by lia. discriminate. }
  destruct Hb as [Hs Hd]. rewrite memcpy_samples in Hm by assumption.
  injection Hm as <-. auto.
Qed.

End MemFacts.

(** ** The entry points *)
Section ApiFacts.
Context `{Collaborators}.

Lemma runs_bind (s0 : frame_state _) (m1 m2 : M (frame_state _) unit)
    (s : frame_state _) (cs1 cs2 : list call) :
  runs_at s0 m1 s cs1 ->
  (forall s', same_session s0 s' -> runs_at s0 m2 s' cs2) ->
  runs_at s0 (m1 ;; m2) s (cs1 ++ cs2).
Proof.
  intros (s1 & E1 & I1 & O1 & L1 & C1) H2.
  destruct (H2 s1 I1) as (s2 & E2 & I2 & O2 & L2 & C2).
  exists s2. unfold bind. rewrite E1.
  repeat split; try apply I2; try congruence.
  rewrite C2, C1, app_assoc. reflexivity.
Qed.

Lemma runs_read {A} (s0 : frame_state _) (f : aec3_handle _ -> A)
    (k : A -> M (frame_state _) unit) (s : frame_state _) (cs : list call) :
  runs_at s0 (k (f (hd s))) s cs ->
  runs_at s0 (x <- read f ;; k x) s cs.
Proof. intros Hk. exact Hk. Qed.

(** The single steps.  Each is stated at a state of the session of
    [s0]. *)
Ltac single_step s :=
  intros (? & ? & ?);
  destruct s as [[? ? ? ? ? ? ? ? ?] ? ? ?];
  cbn in *;
  eexists; split; [reflexivity |];
  cbn; repeat split; try assumption; reflexivity.

Lemma runs_UpdateFrame (s0 s : frame_state _) (f : frame_id) (ts : Z) (samples : option (list int16_t))
    (n rate : Z) (st : SpeechType) (vad : VADActivity) (ch : Z) :
  same_session s0 s ->
  runs_at s0 (UpdateFrame_ f ts samples n rate st vad ch) s
    [Call_UpdateFrame f ts samples n rate st vad ch].
Proof. destruct f; single_step s. Qed.

Lemma runs_CopyFrom (s0 s : frame_state _) (b : buffer_id) (f : frame_id) :
  b <> AecLinearAudio -> same_session s0 s ->
  runs_at s0 (CopyFrom_ b f) s [Call_CopyFrom b f].
Proof. intros Hb. destruct b; [| | congruence]; destruct f; single_step s. Qed.

Lemma runs_CopyTo (s0 s : frame_state _) (b : buffer_id) (f : frame_id) :
  b <> AecLinearAudio -> same_session s0 s ->
  runs_at s0 (CopyTo_ b f) s [Call_CopyTo b f].
Proof. intros Hb. destruct b; [| | congruence]; destruct f; single_step s. Qed.

Lemma runs_SplitIntoFrequencyBands (s0 s : frame_state _) (b : buffer_id) :
  b <> AecLinearAudio -> same_session s0 s ->
  runs_at s0 (SplitIntoFrequencyBands_ b) s [Call_SplitIntoFrequencyBands b].
Proof. intros Hb. destruct b; [| | congruence]; single_step s. Qed.

Lemma runs_MergeFrequencyBands (s0 s : frame_state _) (b : buffer_id) :
  b <> AecLinearAudio -> same_session s0 s ->
  runs_at s0 (MergeFrequencyBands_ b) s [Call_MergeFrequencyBands b].
Proof. intros Hb. destruct b; [| | congruence]; single_step s. Qed.

Lemma runs_AnalyzeRender (s0 s : frame_state _) (b : buffer_id) :
  b <> AecLinearAudio -> same_session s0 s ->
  runs_at s0 (AnalyzeRender_ b) s [Call_AnalyzeRender b].
Proof. intros Hb. destruct b; [| | congruence]; single_step s. Qed.

Lemma runs_AnalyzeCapture (s0 s : frame_state _) (b : buffer_id) :
  b <> AecLinearAudio -> same_session s0 s ->
  runs_at s0 (AnalyzeCapture_ b) s [Call_AnalyzeCapture b].
Proof. intros Hb. destruct b; [| | congruence]; single_step s. Qed.

Lemma runs_HighPassFilter_Process (s0 s : frame_state _) (b : buffer_id) (split_bands : bool) :
  b <> AecLinearAudio -> same_session s0 s ->
  runs_at s0 (HighPassFilter_Process_ b split_bands) s
    [Call_HighPassFilter_Process b split_bands].
Proof. intros Hb. destruct b; [| | congruence]; single_step s. Qed.

Lemma runs_SetAudioBufferDelay (s0 s : frame_state _) (delay : Z) :
  same_session s0 s ->
  runs_at s0 (SetAudioBufferDelay_ delay) s [Call_SetAudioBufferDelay delay].
Proof. single_step s. Qed.

(** Lines 140 to 146: the engine gets the linear buffer exactly when
    the handle has one. *)
Lemma runs_ProcessCapture (s0 s : frame_state _) :
  same_session s0 s ->
  runs_at s0
    (if negb (is_null (aec_linear_audio (hd s)))
     then ProcessCapture_ AecAudio (Some AecLinearAudio) false
     else ProcessCapture_ AecAudio None false) s
    [Call_ProcessCapture AecAudio
       (if negb (is_null (aec_linear_audio (hd s0)))
        then Some AecLinearAudio else None) false].
Proof.
  intros (? & ? & Hl).
  destruct s as [[e hp ra aa [la |] rf af rate ch] out lin iss];
    cbn in *; rewrite <- Hl;
    (eexists; split; [reflexivity |]);
    cbn; repeat split; try assumption; reflexivity.
Qed.

Lemma same_session_refl (s : frame_state _) : same_session s s.
Proof. repeat split. Qed.

(** [process] always runs to its end; it leaves the caller's arrays,
    the rate and channel count and the presence of the linear buffer as
    they were, and issues its calls in program order. *)
Lemma process_returns (reference capture : list int16_t) (frame_size buffer_delay : Z)
    (s0 : frame_state _) :
  runs_at s0 (process reference capture frame_size buffer_delay) s0
    (process_calls (Some reference) (Some capture) frame_size buffer_delay
       (sample_rate (hd s0)) (negb (is_null (aec_linear_audio (hd s0))))).
Proof.
  unfold process, process_calls.
  pose proof (same_session_refl s0) as I0.
  apply runs_read.
  apply (runs_bind _ _ _ _ [_] _); [apply runs_UpdateFrame; exact I0 |].
  intros s1 I1. apply runs_read. rewrite (proj1 I1).
  apply (runs_bind _ _ _ _ [_] _); [apply runs_UpdateFrame; exact I1 |].
  intros s2 I2.
  apply (runs_bind _ _ _ _ [_] _); [apply runs_CopyFrom; [discriminate | exact I2] |].
  intros s3 I3.
  apply (runs_bind _ _ _ _ [_] _); [apply runs_CopyFrom; [discriminate | exact I3] |].
  intros s4 I4.
  apply (runs_bind _ _ _ _ [_] _);
    [apply runs_SplitIntoFrequencyBands; [discriminate | exact I4] |].
  intros s5 I5.
  apply (runs_bind _ _ _ _ [_] _); [apply runs_AnalyzeRender; [discriminate | exact I5] |].
  intros s6 I6.
  apply (runs_bind _ _ _ _ [_] _);
    [apply runs_MergeFrequencyBands; [discriminate | exact I6] |].
  intros s7 I7.
  apply (runs_bind _ _ _ _ [_] _); [apply runs_AnalyzeCapture; [discriminate | exact I7] |].
  intros s8 I8.
  apply (runs_bind _ _ _ _ [_] _);
    [apply runs_SplitIntoFrequencyBands; [discriminate | exact I8] |].
  intros s9 I9.
  apply (runs_bind _ _ _ _ [_] _);
    [apply runs_HighPassFilter_Process; [discriminate | exact I9] |].
  intros s10 I10.
  apply (runs_bind _ _ _ _ [_] _); [apply runs_SetAudioBufferDelay; exact I10 |].
  intros s11 I11. apply runs_read.
  apply (runs_bind _ _ _ _ [_] _); [apply runs_ProcessCapture; exact I11 |].
  intros s12 I12.
  apply (runs_bind _ _ _ _ [_] [_]);
    [apply runs_MergeFrequencyBands; [discriminate | exact I12] |].
  intros s13 I13.
  apply runs_CopyTo; [discriminate | exact I13].
Qed.

Lemma copy_out_eq (frame_size : Z) (s : frame_state _) :
  copy_out frame_size s =
  match Mem.memcpy (output s) (data (aec_frame (hd s)))
          (output_bytes frame_size (num_channels (hd s))) with
  | Some o =>
      Returns (tt, {| hd := hd s; output := o; linear_output := linear_output s;
                      issued := issued s ++
                                copy_out_calls frame_size (num_channels (hd s)) |})
  | None => Undefined
  end.
Proof. reflexivity. Qed.

Lemma linear_step_eq (s : frame_state _) :
  linear_step s =
  match linear_output s, aec_linear_audio (hd s) with
  | Some l, Some y =>
      let r := linear_staging y (aec_frame (hd s)) in
      match Mem.memcpy l (data (snd r)) 320 with
      | Some o =>
          Returns (tt, {| hd := set_frame AecFrame (snd r)
                                  (set_buffer AecLinearAudio (fst r) (hd s));
                          output := output s; linear_output := Some o;
                          issued := issued s ++ linear_step_calls |})
      | None => Undefined
      end
  | _, _ => Returns (tt, s)
  end.
Proof.
  destruct s as [h out [l |] iss]; destruct h as [e hp ra aa [la |] rf af rate ch];
    try reflexivity.
  unfold linear_step, bind, read, linear_staging. cbn -[Mem.memcpy].
  destruct (Mem.memcpy _ _ 320); [| reflexivity].
  rewrite <- !app_assoc. reflexivity.
Qed.

(** One call past the null checks, on a live handle [h]: the first
    stage always completes, in some state [s1] of the same session;
    what follows is decided by the two copies. *)
Lemma process_frame_run (a : addr) (h : aec3_handle _) (w : world _)
    (reference capture out : list int16_t) (lin : option (list int16_t))
    (frame_size buffer_delay : Z) :
  heap w !! a = Some h ->
  exists s1 : frame_state _,
    same_session {| hd := h; output := out; linear_output := lin; issued := [] |} s1 /\
    aec3_process_frame (Some a) (Some reference) (Some capture) (Some out) lin
      frame_size buffer_delay w =
    let front :=
      process_calls (Some reference) (Some capture) frame_size buffer_delay
        (sample_rate h) (negb (is_null (aec_linear_audio h))) ++
      copy_out_calls frame_size (num_channels h) in
    match Mem.memcpy out (data (aec_frame (hd s1)))
            (output_bytes frame_size (num_channels h)) with
    | None => Undefined
    | Some o =>
        match lin, aec_linear_audio (hd s1) with
        | Some l, Some y =>
            let r := linear_staging y (aec_frame (hd s1)) in
            match Mem.memcpy l (data (snd r)) 320 with
            | None => Undefined
            | Some o' =>
                Returns
                  ({| status := 0; output_frame_after := Some o;
                      linear_output_frame_after := Some o' |},
                   {| heap := <[a := set_frame AecFrame (snd r)
                                       (set_buffer AecLinearAudio (fst r) (hd s1))]>
                                (heap w);
                      calls := calls w ++ front ++ linear_step_calls |})
            end
        | _, _ =>
            Returns
              ({| status := 0; output_frame_after := Some o;
                  linear_output_frame_after := lin |},
               {| heap := <[a := hd s1]> (heap w); calls := calls w ++ front |})
        end
    end.
Proof.
  intros Hh.
  set (s0 := {| hd := h; output := out; linear_output := lin; issued := [] |}).
  destruct (process_returns reference capture frame_size buffer_delay s0)
    as (s1 & E1 & I1 & O1 & L1 & C1).
  exists s1. split; [exact I1 |].
  destruct I1 as (Hr & Hc & Hl). cbn in Hr, Hc, Hl, O1, L1, C1.
  unfold aec3_process_frame. rewrite Hh. fold s0.
  unfold pipeline. unfold bind at 1. rewrite E1.
  unfold bind at 1. rewrite copy_out_eq, O1, Hc.
  destruct (Mem.memcpy out _ _) as [o |]; [| reflexivity].
  unfold bind at 1. rewrite linear_step_eq.
  cbn [hd output linear_output issued]. rewrite L1, C1.
  destruct lin as [l |]; [destruct (aec_linear_audio (hd s1)) as [y |] |].
  - cbv zeta. destruct (Mem.memcpy l _ 320) as [o' |]; [| reflexivity].
    unfold ret. cbn [status hd output linear_output issued].
    rewrite <- !app_assoc. reflexivity.
  - unfold ret. cbn [status hd output linear_output issued]. reflexivity.
  - unfold ret. cbn [status hd output linear_output issued]. reflexivity.
Qed.

(** [aec3_create] with a configuration returns a handle at an address
    that was free; the handle object has a linear buffer exactly when the
    configuration asks for linear output, and carries the rate and the
    channel count of the configuration. *)
Lemma create_returns (config : aec3_config_t.t) (w : world _) :
  exists a h w',
    aec3_create (Some config) w = Returns (Some a, w') /\
    heap w !! a = None /\
    heap w' = <[a := h]> (heap w) /\
    is_null (aec_linear_audio h) = negb (aec3_config_t.export_linear config) /\
    sample_rate h = aec3_config_t.sample_rate config /\
    num_channels h = aec3_config_t.num_channels config.
Proof.
  assert (Hfresh : heap w !! fresh (dom (heap w)) = None)
    by (apply not_elem_of_dom, is_fresh).
  unfold aec3_create, bind, new_aec3_handle_t, construct, emit, store, ret, bind.
  destruct (aec3_config_t.export_linear config);
    (eexists _, _, _; split; [reflexivity |]);
    cbn; repeat split; exact Hfresh.
Qed.

(** A call that returns leaves the handle live, with its linear buffer
    present or absent as before. *)
Lemma process_frame_keeps_linear
    (a : addr) (h : aec3_handle _) (w w' : world _)
    (reference capture out : list int16_t) (lin : option (list int16_t))
    (frame_size buffer_delay : Z) (r : frame_result) :
  heap w !! a = Some h ->
  aec3_process_frame (Some a) (Some reference) (Some capture) (Some out) lin
    frame_size buffer_delay w = Returns (r, w') ->
  exists h', heap w' !! a = Some h' /\
             is_null (aec_linear_audio h') = is_null (aec_linear_audio h).
Proof.
  intros Hh Hcall.
  destruct (process_frame_run a h w reference capture out lin
              frame_size buffer_delay Hh) as (s1 & (_ & _ & Hl) & Hrun).
  cbn in Hl. rewrite Hrun in Hcall. clear Hrun. cbv zeta in Hcall.
  destruct (Mem.memcpy out _ _) as [o |]; [| discriminate Hcall].
  destruct lin as [l |]; [destruct (aec_linear_audio (hd s1)) as [y |] eqn:Hy |].
  - destruct (Mem.memcpy l _ 320) as [o' |]; [| discriminate Hcall].
    injection Hcall as <- <-. eexists. split; [apply lookup_insert_eq |].
    rewrite <- Hl. reflexivity.
  - injection Hcall as <- <-. eexists. split; [apply lookup_insert_eq |].
    rewrite Hy. exact Hl.
  - injection Hcall as <- <-. eexists. split; [apply lookup_insert_eq |].
    exact Hl.
Qed.

(** C7.  [aec3_create] with a null configuration returns a null handle
    and leaves the world as it was: no handle object comes to live and
    no constructor is called. *)
Theorem create_null_config (w : world _) :
  aec3_create None w = Returns (None, w).
Proof. reflexivity. Qed.

(** C4.  When the handle or one of the three mandatory frame pointers
    is null, [aec3_process_frame] returns the negative status -1 and
    does nothing else: the world, that is every handle object with its
    engine, filter and buffers, and the record of calls, is as before,
    and the caller's arrays are untouched. *)
Theorem null_argument_is_noop
    (handle : option addr)
    (reference_frame capture_frame output_frame linear_output_frame : option (list int16_t))
    (frame_size buffer_delay : Z) (w : world _) :
  is_null handle || is_null reference_frame || is_null capture_frame
    || is_null output_frame = true ->
  exists r,
    aec3_process_frame handle reference_frame capture_frame output_frame
      linear_output_frame frame_size buffer_delay w = Returns (r, w) /\
    status r = -1 /\ status r < 0 /\
    output_frame_after r = output_frame /\
    linear_output_frame_after r = linear_output_frame.
Proof.
  intros Hnull.
  destruct handle, reference_frame, capture_frame, output_frame;
    try discriminate Hnull;
    cbv [aec3_process_frame ret];
    (eexists; split; [reflexivity | cbn; repeat split; lia]).
Qed.

(** C3.  A call that returns 0 ran on a live handle and issued, after
    the calls recorded before it, exactly these calls in this order:
    the two frame updates and copies into the buffers; on the reference
    buffer split, render analysis, merge; on the capture buffer capture
    analysis, then split, then the high-pass filter; the caller's
    [buffer_delay], as given, to the engine; the suppression stage; the
    merge of the capture bands; the copy to the staging frame and the
    [memcpy] into the caller's output array; and, when a linear output
    array was passed and the handle has a linear buffer, the three
    calls of the linear step. *)
Theorem process_frame_call_order
    (handle : option addr)
    (reference_frame capture_frame output_frame linear_output_frame : option (list int16_t))
    (frame_size buffer_delay : Z) (w w' : world _) (r : frame_result) :
  aec3_process_frame handle reference_frame capture_frame output_frame
    linear_output_frame frame_size buffer_delay w = Returns (r, w') ->
  status r = 0 ->
  exists a h,
    handle = Some a /\ heap w !! a = Some h /\
    calls w' =
      calls w ++
      [ Call_UpdateFrame RefFrame 0 reference_frame frame_size (sample_rate h)
          kNormalSpeech kVadActive 1;
        Call_UpdateFrame AecFrame 0 capture_frame frame_size (sample_rate h)
          kNormalSpeech kVadActive 1;
        Call_CopyFrom RefAudio RefFrame;
        Call_CopyFrom AecAudio AecFrame;
        Call_SplitIntoFrequencyBands RefAudio;
        Call_AnalyzeRender RefAudio;
        Call_MergeFrequencyBands RefAudio;
        Call_AnalyzeCapture AecAudio;
        Call_SplitIntoFrequencyBands AecAudio;
        Call_HighPassFilter_Process AecAudio true;
        Call_SetAudioBufferDelay buffer_delay;
        Call_ProcessCapture AecAudio
          (if is_null (aec_linear_audio h) then None else Some AecLinearAudio) false;
        Call_MergeFrequencyBands AecAudio;
        Call_CopyTo AecAudio AecFrame;
        Call_memcpy OutputFrame AecFrame
          (output_bytes frame_size (num_channels h)) ] ++
      (if negb (is_null linear_output_frame) && negb (is_null (aec_linear_audio h))
       then [ Call_UpdateFrame AecFrame 0 None 160 16000 kNormalSpeech kVadActive 1;
              Call_CopyTo AecLinearAudio AecFrame;
              Call_memcpy LinearOutputFrame AecFrame 320 ]
       else []).
Proof.
  intros Hcall Hst.
  assert (Hnull : is_null handle || is_null reference_frame
                  || is_null capture_frame || is_null output_frame = true ->
                  False).
  { intros Hn.
    destruct handle, reference_frame, capture_frame, output_frame;
      try discriminate Hn;
      cbv [aec3_process_frame ret] in Hcall;
      injection Hcall as <- <-; discriminate Hst. }
  destruct handle as [a |]; [| elim Hnull; reflexivity].
  destruct reference_frame as [reference |]; [| elim Hnull; reflexivity].
  destruct capture_frame as [capture |]; [| elim Hnull; reflexivity].
  destruct output_frame as [out |]; [| elim Hnull; reflexivity].
  clear Hnull.
  destruct (heap w !! a) as [h |] eqn:Hh;
    [| unfold aec3_process_frame in Hcall; rewrite Hh in Hcall; discriminate Hcall].
  exists a, h. split; [reflexivity |]. split; [exact Hh |].
  destruct (process_frame_run a h w reference capture out linear_output_frame
              frame_size buffer_delay Hh) as (s1 & (_ & _ & Hl) & Hrun).
  cbn in Hl. rewrite Hrun in Hcall. clear Hrun. cbv zeta in Hcall.
  destruct (Mem.memcpy out _ _) as [o |]; [| discriminate Hcall].
  destruct linear_output_frame as [l |];
    [destruct (aec_linear_audio (hd s1)) as [y |] |].
  - destruct (Mem.memcpy l _ 320) as [o' |]; [| discriminate Hcall].
    injection Hcall as <- <-.
    destruct (aec_linear_audio h); [| discriminate Hl]. reflexivity.
  - injection Hcall as <- <-.
    destruct (aec_linear_audio h); [discriminate Hl |]. reflexivity.
  - injection Hcall as <- <-.
    destruct (aec_linear_audio h); reflexivity.
Qed.

Lemma output_bytes_nonneg (frame_size channels : Z) :
  0 <= output_bytes frame_size channels.
Proof.
  unfold output_bytes, Mem.size_mul, Mem.to_size_t.
  apply Z.mod_pos_bound. reflexivity.
Qed.

(** C5.  On a call that passes the null checks, the caller's linear
    output array is written exactly when the handle has a linear buffer
    and [linear_output_frame] is not null.  Otherwise the linear step is
    skipped and the array is as before; the call is no error for that:
    whenever the copy into [output_frame] fits, it returns 0. *)
Theorem linear_output_written_iff
    (a : addr) (h : aec3_handle _) (w : world _)
    (reference capture out : list int16_t) (linear_output_frame : option (list int16_t))
    (frame_size buffer_delay : Z) :
  heap w !! a = Some h ->
  (forall r w',
     aec3_process_frame (Some a) (Some reference) (Some capture) (Some out)
       linear_output_frame frame_size buffer_delay w = Returns (r, w') ->
     status r = 0 /\
     exists cs,
       calls w' = calls w ++ cs /\
       (existsb (writes_to LinearOutputFrame) cs = true <->
        is_null (aec_linear_audio h) = false /\ is_null linear_output_frame = false) /\
       (existsb (writes_to LinearOutputFrame) cs = false ->
        linear_output_frame_after r = linear_output_frame)) /\
  (output_bytes frame_size (num_channels h) <= 2 * Z.of_nat (length out) ->
   (forall f : AudioFrame,
      output_bytes frame_size (num_channels h) <= 2 * Z.of_nat (length (data f))) ->
   is_null (aec_linear_audio h) = true \/ is_null linear_output_frame = true ->
   exists r w',
     aec3_process_frame (Some a) (Some reference) (Some capture) (Some out)
       linear_output_frame frame_size buffer_delay w = Returns (r, w') /\
     status r = 0 /\ linear_output_frame_after r = linear_output_frame).
Proof.
  intros Hh.
  destruct (process_frame_run a h w reference capture out linear_output_frame
              frame_size buffer_delay Hh) as (s1 & (_ & _ & Hl) & Hrun).
  cbn in Hl. rewrite Hrun. clear Hrun. cbv zeta. split.
  - intros r w' Hcall.
    destruct (Mem.memcpy out _ _) as [o |]; [| discriminate Hcall].
    destruct linear_output_frame as [l |];
      [destruct (aec_linear_audio (hd s1)) as [y |] |].
    + destruct (Mem.memcpy l _ 320) as [o' |]; [| discriminate Hcall].
      injection Hcall as <- <-. split; [reflexivity |].
      eexists. split; [reflexivity |].
      destruct (aec_linear_audio h); [| discriminate Hl].
      cbn. split; [tauto | discriminate].
    + injection Hcall as <- <-. split; [reflexivity |].
      eexists. split; [reflexivity |].
      destruct (aec_linear_audio h); [discriminate Hl |].
      cbn. split; [| reflexivity]. split; [discriminate | intros [? ?]; discriminate].
    + injection Hcall as <- <-. split; [reflexivity |].
      eexists. split; [reflexivity |].
      destruct (aec_linear_audio h);
        cbn; (split; [| reflexivity]); (split; [discriminate | intros [? ?]; discriminate]).
  - intros Hout Hsrc Hskip.
    destruct (MemFacts.memcpy_defined out (data (aec_frame (hd s1)))
                (output_bytes frame_size (num_channels h))
                (output_bytes_nonneg _ _) (Hsrc _) Hout) as [o ->].
    destruct linear_output_frame as [l |];
      [destruct (aec_linear_audio (hd s1)) as [y |] |].
    + exfalso. destruct Hskip as [Hn | Hn]; [| discriminate Hn].
      rewrite <- Hl in Hn. discriminate Hn.
    + eexists _, _. split; [reflexivity |]. split; reflexivity.
    + eexists _, _. split; [reflexivity |]. split; reflexivity.
Qed.

(** C6, amended.  A call that runs the linear step reconfigures the
    staging frame to 160 samples per channel at 16000 Hz, copies the
    linear buffer into it, and copies 320 bytes, that is 160 samples of
    16-bit PCM, into the caller's linear output array; whatever lies
    beyond the first 160 samples of that array stays.  None of this
    depends on the rate of the session. *)
Theorem linear_step_copies_160_samples
    (a : addr) (h : aec3_handle _) (w w' : world _)
    (reference capture out l : list int16_t)
    (frame_size buffer_delay : Z) (r : frame_result) :
  heap w !! a = Some h ->
  is_null (aec_linear_audio h) = false ->
  aec3_process_frame (Some a) (Some reference) (Some capture) (Some out)
    (Some l) frame_size buffer_delay w = Returns (r, w') ->
  exists cs h' y f,
    calls w' =
      calls w ++ cs ++
      [ Call_UpdateFrame AecFrame 0 None (16000 ÷ 100) 16000
          kNormalSpeech kVadActive 1;
        Call_CopyTo AecLinearAudio AecFrame;
        Call_memcpy LinearOutputFrame AecFrame 320 ] /\
    heap w' !! a = Some h' /\
    aec_frame h' =
      snd (CopyTo y (UpdateFrame f 0 None 160 16000 kNormalSpeech kVadActive 1)) /\
    Mem.sizeof_int16_t * 160 = 320 /\
    (160 <= length l)%nat /\
    (160 <= length (data (aec_frame h')))%nat /\
    linear_output_frame_after r =
      Some (take 160 (data (aec_frame h')) ++ drop 160 l).
Proof.
  intros Hh Hlin Hcall.
  destruct (process_frame_run a h w reference capture out (Some l)
              frame_size buffer_delay Hh) as (s1 & (_ & _ & Hl) & Hrun).
  cbn in Hl. rewrite Hrun in Hcall. clear Hrun. cbv zeta in Hcall.
  destruct (Mem.memcpy out _ _) as [o |]; [| discriminate Hcall].
  destruct (aec_linear_audio (hd s1)) as [y |];
    [| rewrite Hlin in Hl; discriminate Hl].
  destruct (Mem.memcpy l _ 320) as [o' |] eqn:Hcopy; [| discriminate Hcall].
  injection Hcall as <- <-.
  change 320 with (2 * Z.of_nat 160) in Hcopy.
  apply MemFacts.memcpy_samples_inv in Hcopy as (Hsrc & Hdst & ->).
  exists (process_calls (Some reference) (Some capture) frame_size buffer_delay
            (sample_rate h) (negb (is_null (aec_linear_audio h))) ++
          copy_out_calls frame_size (num_channels h)).
  eexists _, y, (aec_frame (hd s1)).
  split; [reflexivity |].
  split; [apply lookup_insert_eq |].
  split; [reflexivity |].
  split; [reflexivity |].
  split; [exact Hdst |].
  split; [exact Hsrc |].
  reflexivity.
Qed.

(** A call that passes the null checks and returns, returns 0. *)
Lemma passed_checks_status
    (a : addr) (w w' : world _)
    (reference capture out : list int16_t) (lin : option (list int16_t))
    (frame_size buffer_delay : Z) (r : frame_result) :
  aec3_process_frame (Some a) (Some reference) (Some capture) (Some out) lin
    frame_size buffer_delay w = Returns (r, w') ->
  status r = 0.
Proof.
  intros Hcall.
  destruct (heap w !! a) as [h |] eqn:Hh;
    [| unfold aec3_process_frame in Hcall; rewrite Hh in Hcall; discriminate Hcall].
  destruct (process_frame_run a h w reference capture out lin
              frame_size buffer_delay Hh) as (s1 & _ & Hrun).
  rewrite Hrun in Hcall. clear Hrun. cbv zeta in Hcall.
  destruct (Mem.memcpy out _ _) as [o |]; [| discriminate Hcall].
  destruct lin as [l |]; [destruct (aec_linear_audio (hd s1)) as [y |] |].
  - destruct (Mem.memcpy l _ 320) as [o' |]; [| discriminate Hcall].
    injection Hcall as <- <-. reflexivity.
  - injection Hcall as <- <-. reflexivity.
  - injection Hcall as <- <-. reflexivity.
Qed.

(** A call with a null handle or mandatory frame returns -1. *)
Lemma failed_checks_status
    (handle : option addr)
    (reference_frame capture_frame output_frame linear_output_frame : option (list int16_t))
    (frame_size buffer_delay : Z) (w : world _) :
  is_null handle || is_null reference_frame || is_null capture_frame
    || is_null output_frame = true ->
  exists r,
    aec3_process_frame handle reference_frame capture_frame output_frame
      linear_output_frame frame_size buffer_delay w = Returns (r, w) /\
    status r = -1.
Proof.
  intros Hnull.
  destruct handle, reference_frame, capture_frame, output_frame;
    try discriminate Hnull;
    cbv [aec3_process_frame ret];
    (eexists; split; reflexivity).
Qed.

(** C10, amended.  Whatever [aec3_process_frame] returns is 0 or -1.
    A null handle or mandatory frame pointer gives -1, the same code
    for each of the four.  With the four pointers non-null and the
    handle live, the call returns 0 whenever its copies stay inside the
    arrays they read and write; [frame_size] and [buffer_delay] are not
    looked at otherwise, whatever their sign or size.  A [frame_size]
    whose byte count exceeds the caller's output array is not rejected:
    the copy overruns the array and the call has no defined result. *)
Theorem process_frame_status
    (handle : option addr)
    (reference_frame capture_frame output_frame linear_output_frame : option (list int16_t))
    (frame_size buffer_delay : Z) (w : world _) :
  let call :=
    aec3_process_frame handle reference_frame capture_frame output_frame
      linear_output_frame frame_size buffer_delay w in
  (forall r w', call = Returns (r, w') -> status r = 0 \/ status r = -1) /\
  (is_null handle || is_null reference_frame || is_null capture_frame
     || is_null output_frame = true ->
   exists r, call = Returns (r, w) /\ status r = -1) /\
  (forall a h reference capture out,
     handle = Some a -> heap w !! a = Some h ->
     reference_frame = Some reference -> capture_frame = Some capture ->
     output_frame = Some out ->
     output_bytes frame_size (num_channels h) <= 2 * Z.of_nat (length out) ->
     (forall f : AudioFrame,
        output_bytes frame_size (num_channels h) <= 2 * Z.of_nat (length (data f))) ->
     (forall l, linear_output_frame = Some l ->
                is_null (aec_linear_audio h) = false ->
                (160 <= length l)%nat /\
                forall f : AudioFrame, (160 <= length (data f))%nat) ->
     exists r w', call = Returns (r, w') /\ status r = 0) /\
  (forall a h reference capture out,
     handle = Some a -> heap w !! a = Some h ->
     reference_frame = Some reference -> capture_frame = Some capture ->
     output_frame = Some out ->
     2 * Z.of_nat (length out) < output_bytes frame_size (num_channels h) ->
     call = Undefined).
Proof.
  cbv zeta. split; [| split; [| split]].
  - intros r w' Hcall.
    destruct (is_null handle || is_null reference_frame || is_null capture_frame
              || is_null output_frame) eqn:Hn.
    + destruct (failed_checks_status handle reference_frame capture_frame
                  output_frame linear_output_frame frame_size buffer_delay w Hn)
        as (r0 & E & Hs).
      rewrite E in Hcall. injection Hcall as <- <-. right. exact Hs.
    + destruct handle as [a |]; [| discriminate Hn].
      destruct reference_frame as [reference |]; [| discriminate Hn].
      destruct capture_frame as [capture |]; [| discriminate Hn].
      destruct output_frame as [out |]; [| discriminate Hn].
      left. exact (passed_checks_status _ _ _ _ _ _ _ _ _ _ Hcall).
  - apply failed_checks_status.
  - intros a h reference capture out -> Hh -> -> -> Hout Hsrc Hlin.
    destruct (process_frame_run a h w reference capture out linear_output_frame
                frame_size buffer_delay Hh) as (s1 & (_ & _ & Hl) & Hrun).
    cbn in Hl. rewrite Hrun. clear Hrun. cbv zeta.
    destruct (MemFacts.memcpy_defined out (data (aec_frame (hd s1)))
                (output_bytes frame_size (num_channels h))
                (output_bytes_nonneg _ _) (Hsrc _) Hout) as [o ->].
    destruct linear_output_frame as [l |];
      [destruct (aec_linear_audio (hd s1)) as [y |] |].
    + assert (Hnn : is_null (aec_linear_audio h) = false) by (rewrite <- Hl; reflexivity).
      destruct (Hlin l eq_refl Hnn) as [Hdst Hdata].
      change 320 with (2 * Z.of_nat 160).
      rewrite MemFacts.memcpy_samples by (apply Hdata || exact Hdst).
      eexists _, _. split; reflexivity.
    + eexists _, _. split; reflexivity.
    + eexists _, _. split; reflexivity.
  - intros a h reference capture out -> Hh -> -> -> Hover.
    destruct (process_frame_run a h w reference capture out linear_output_frame
                frame_size buffer_delay Hh) as (s1 & _ & Hrun).
    rewrite Hrun. clear Hrun. cbv zeta.
    rewrite MemFacts.memcpy_undefined by (right; exact Hover). reflexivity.
Qed.

(** C9, amended.  [aec3_destroy] of a null handle does nothing.
    [aec3_destroy] of a live handle returns and releases the handle
    object with everything it owns: nothing lives at its address any
    more, and the other handles are as before.  A second
    [aec3_destroy] of the same handle deletes a dead object: it has no
    defined result. *)
Theorem destroy_releases (w : world _) :
  aec3_destroy None w = Returns (tt, w) /\
  (forall a h,
     heap w !! a = Some h ->
     exists w',
       aec3_destroy (Some a) w = Returns (tt, w') /\
       heap w' !! a = None /\
       (forall b, b <> a -> heap w' !! b = heap w !! b) /\
       aec3_destroy (Some a) w' = Undefined).
Proof.
  split; [reflexivity |].
  intros a h Hh. unfold aec3_destroy. rewrite Hh.
  eexists. split; [reflexivity |]. cbn [heap].
  rewrite lookup_delete_eq. repeat split.
  intros b Hb. apply lookup_delete_ne. congruence.
Qed.

End ApiFacts.

(** ** Runs on the pass-through stand-in *)
Module Runs.
Import Loopback.

Lemma fit_length (l : list int16_t) : length (fit l) = kMaxDataSizeSamples.
Proof.
  unfold fit. rewrite length_take, length_app, length_replicate. lia.
Qed.

Lemma created_handle (export_linear : bool) :
  fst (created export_linear) = Some 1%positive /\
  heap (snd (created export_linear)) !! 1%positive = Some (new_handle export_linear).
Proof.
  destruct export_linear.
  - split; [vm_compute; reflexivity | vm_compute; reflexivity].
  - split; [vm_compute; reflexivity | vm_compute; reflexivity].
Qed.

(** A frame of 160 samples on a fresh session with linear output
    returns. *)
Lemma first_frame_returns :
  let run := returned (first_frame true true 160 3) failed in
  first_frame true true 160 3 = Returns (fst run, snd run) /\
  status (fst run) = 0.
Proof. split; vm_compute; reflexivity. Qed.

(** The same on a session without linear output, called with a linear
    output array all the same. *)
Lemma first_frame_without_linear_returns :
  let run := returned (first_frame false true 160 3) failed in
  first_frame false true 160 3 = Returns (fst run, snd run).
Proof. vm_compute. reflexivity. Qed.

Lemma process_frame_call_order_witness :
  let run := returned (first_frame true true 160 3) failed in
  first_frame true true 160 3 = Returns (fst run, snd run) /\
  status (fst run) = 0 /\
  exists a h,
    fst (created true) = Some a /\ heap (snd (created true)) !! a = Some h /\
    calls (snd run) =
      calls (snd (created true)) ++
      [ Call_UpdateFrame RefFrame 0 (Some (samples 160 tone)) 160 (sample_rate h)
          kNormalSpeech kVadActive 1;
        Call_UpdateFrame AecFrame 0 (Some (samples 160 tone)) 160 (sample_rate h)
          kNormalSpeech kVadActive 1;
        Call_CopyFrom RefAudio RefFrame;
        Call_CopyFrom AecAudio AecFrame;
        Call_SplitIntoFrequencyBands RefAudio;
        Call_AnalyzeRender RefAudio;
        Call_MergeFrequencyBands RefAudio;
        Call_AnalyzeCapture AecAudio;
        Call_SplitIntoFrequencyBands AecAudio;
        Call_HighPassFilter_Process AecAudio true;
        Call_SetAudioBufferDelay 3;
        Call_ProcessCapture AecAudio
          (if is_null (aec_linear_audio h) then None else Some AecLinearAudio) false;
        Call_MergeFrequencyBands AecAudio;
        Call_CopyTo AecAudio AecFrame;
        Call_memcpy OutputFrame AecFrame (output_bytes 160 (num_channels h)) ] ++
      (if negb (is_null (Some (samples 320 mark))) && negb (is_null (aec_linear_audio h))
       then [ Call_UpdateFrame AecFrame 0 None 160 16000 kNormalSpeech kVadActive 1;
              Call_CopyTo AecLinearAudio AecFrame;
              Call_memcpy LinearOutputFrame AecFrame 320 ]
       else []).
Proof.
  cbv zeta.
  destruct first_frame_returns as [Hcall Hst].
  split; [exact Hcall |]. split; [exact Hst |].
  exact (process_frame_call_order _ _ _ _ _ _ _ _ _ _ Hcall Hst).
Defined.

Lemma null_argument_is_noop_witness :
  exists r,
    aec3_process_frame (fst (created true)) None (Some (samples 160 tone))
      (Some (samples 160 silence)) None 160 3 (snd (created true))
    = Returns (r, snd (created true)) /\
    status r = -1 /\ status r < 0 /\
    output_frame_after r = Some (samples 160 silence) /\
    linear_output_frame_after r = None.
Proof.
  apply (null_argument_is_noop (fst (created true)) None (Some (samples 160 tone))
           (Some (samples 160 silence)) None 160 3 (snd (created true))).
  vm_compute. reflexivity.
Defined.

(** A session without linear output, called with a linear output
    array: the array is not written and the call returns 0. *)
Lemma linear_output_written_iff_witness :
  let run := returned (first_frame false true 160 3) failed in
  status (fst run) = 0 /\
  linear_output_frame_after (fst run) = Some (samples 320 mark) /\
  exists r w',
    first_frame false true 160 3 = Returns (r, w') /\
    status r = 0 /\ linear_output_frame_after r = Some (samples 320 mark).
Proof.
  cbv zeta.
  pose proof (linear_output_written_iff 1%positive (new_handle false)
                (snd (created false)) (samples 160 tone) (samples 160 tone)
                (samples 160 silence) (Some (samples 320 mark)) 160 3
                (proj2 (created_handle false))) as [Hret Hskip].
  pose proof first_frame_without_linear_returns as Hcall. cbv zeta in Hcall.
  destruct (Hret _ _ Hcall) as (Hst & cs & Hcs & Hiff & Hsame).
  split; [exact Hst |]. split.
  - apply Hsame.
    destruct (existsb (writes_to LinearOutputFrame) cs) eqn:Hw; [| reflexivity].
    destruct (proj1 Hiff eq_refl) as [Hn _]. discriminate Hn.
  - apply Hskip.
    + vm_compute. discriminate.
    + intros f. change (length (data f)) with (length (fit f)).
      rewrite fit_length. vm_compute. discriminate.
    + left. reflexivity.
Defined.

Lemma linear_step_copies_160_samples_witness :
  let run := returned (first_frame true true 160 3) failed in
  exists h',
    heap (snd run) !! 1%positive = Some h' /\
    linear_output_frame_after (fst run) =
      Some (take 160 (data (aec_frame h')) ++ drop 160 (samples 320 mark)).
Proof.
  cbv zeta.
  destruct first_frame_returns as [Hcall _].
  destruct (linear_step_copies_160_samples 1%positive (new_handle true)
              (snd (created true)) _ (samples 160 tone) (samples 160 tone)
              (samples 160 silence) (samples 320 mark) 160 3 _
              (proj2 (created_handle true)) eq_refl Hcall)
    as (cs & h' & y & f & _ & Hh' & _ & _ & _ & _ & Hafter).
  exists h'. split; assumption.
Defined.

(** The claim of C6 fails as it stands: after a call that runs the
    linear step on an array of 320 marked samples, samples 160 to 319
    still carry the mark, while the staging frame is silent there.
    320 samples were not copied; 160 were. *)
Lemma linear_step_does_not_copy_320_samples :
  let run := returned (first_frame true true 160 3) failed in
  first_frame true true 160 3 = Returns (fst run, snd run) /\
  exists h' l',
    heap (snd run) !! 1%positive = Some h' /\
    linear_output_frame_after (fst run) = Some l' /\
    take 320 l' <> take 320 (data (aec_frame h')) /\
    take 160 l' = take 160 (data (aec_frame h')) /\
    drop 160 l' = drop 160 (samples 320 mark).
Proof.
  cbv zeta. split; [exact (proj1 first_frame_returns) |].
  eexists _, _.
  split; [vm_compute; reflexivity |].
  split; [vm_compute; reflexivity |].
  split; [intros E; vm_compute in E; discriminate E |].
  split; [vm_compute; reflexivity | vm_compute; reflexivity].
Qed.

(** The claim of C9 fails as it stands: the second [aec3_destroy] of a
    handle deletes an object that is dead already. *)
Lemma second_destroy_is_undefined :
  let w1 := snd (returned (aec3_destroy (fst (created false)) (snd (created false)))
                          (tt, empty_world)) in
  fst (created false) = Some 1%positive /\
  aec3_destroy (fst (created false)) (snd (created false)) = Returns (tt, w1) /\
  aec3_destroy (fst (created false)) w1 = Undefined.
Proof.
  cbv zeta. split; [| split].
  - vm_compute. reflexivity.
  - vm_compute. reflexivity.
  - vm_compute. reflexivity.
Qed.

Lemma destroy_releases_witness :
  exists w',
    aec3_destroy (Some 1%positive) (snd (created false)) = Returns (tt, w') /\
    heap w' !! 1%positive = None /\
    (forall b, b <> 1%positive -> heap w' !! b = heap (snd (created false)) !! b) /\
    aec3_destroy (Some 1%positive) w' = Undefined.
Proof.
  exact (proj2 (destroy_releases (snd (created false))) 1%positive (new_handle false)
           (proj2 (created_handle false))).
Defined.

(** The claim of C10 fails as it stands: with a live handle and four
    non-null pointers, a [frame_size] of 4000 on arrays of 160 samples
    does not return 0; the copy into the output array overruns it. *)
Lemma oversized_frame_does_not_return :
  fst (created false) = Some 1%positive /\
  heap (snd (created false)) !! 1%positive = Some (new_handle false) /\
  first_frame false false 4000 3 = Undefined.
Proof.
  split; [| split].
  - vm_compute. reflexivity.
  - vm_compute. reflexivity.
  - vm_compute. reflexivity.
Qed.

Lemma process_frame_status_witness :
  (exists r w', first_frame false false 160 3 = Returns (r, w') /\ status r = 0) /\
  (exists r w', first_frame false false 0 (-7) = Returns (r, w') /\ status r = 0) /\
  (exists r,
     aec3_process_frame None (Some (samples 160 tone)) (Some (samples 160 tone))
       (Some (samples 160 silence)) None 160 3 (snd (created false))
     = Returns (r, snd (created false)) /\ status r = -1).
Proof.
  assert (Hfit : forall n : Z, n <= 320 ->
            forall f : @AudioFrame collaborators,
              n <= 2 * Z.of_nat (length (@data collaborators f))).
  { intros n Hn f. change (length (data f)) with (length (fit f)).
    rewrite fit_length. unfold kMaxDataSizeSamples. lia. }
  split; [| split].
  - apply (proj1 (proj2 (proj2
             (process_frame_status (fst (created false)) (Some (samples 160 tone))
                (Some (samples 160 tone)) (Some (samples 160 silence)) None 160 3
                (snd (created false)))))
             1%positive (new_handle false) (samples 160 tone) (samples 160 tone)
             (samples 160 silence)
             (proj1 (created_handle false)) (proj2 (created_handle false))
             eq_refl eq_refl eq_refl).
    + vm_compute. discriminate.
    + apply Hfit. vm_compute. discriminate.
    + intros l Hl. discriminate Hl.
  - apply (proj1 (proj2 (proj2
             (process_frame_status (fst (created false)) (Some (samples 160 tone))
                (Some (samples 160 tone)) (Some (samples 160 silence)) None 0 (-7)
                (snd (created false)))))
             1%positive (new_handle false) (samples 160 tone) (samples 160 tone)
             (samples 160 silence)
             (proj1 (created_handle false)) (proj2 (created_handle false))
             eq_refl eq_refl eq_refl).
    + vm_compute. discriminate.
    + apply Hfit. vm_compute. discriminate.
    + intros l Hl. discriminate Hl.
  - apply (proj1 (proj2
             (process_frame_status None (Some (samples 160 tone))
                (Some (samples 160 tone)) (Some (samples 160 silence)) None 160 3
                (snd (created false))))).
    reflexivity.
Defined.

End Runs.

(** * Further properties *)

(** ** The effective level *)
Module ProfileExtras.
Import EchoCanceller3Config Profile.

(** After the substitution the lower end of the clamp has nothing left to
    do: the substituted level is never at most zero, so only the upper
    end can change it. *)
Lemma clamp_lower_end_idle (level : float) :
  clamp (substitute_default level) = F32.min (F32.lit 1.0) (substitute_default level).
Proof.
  unfold clamp, substitute_default, F32.max, F32.min.
  destruct (F32.gt level (F32.lit 0.0)) eqn:Hgt.
  - destruct (F32.lt level (F32.lit 1.0)); [| reflexivity].
    unfold F32.gt in Hgt. unfold F32.lt. rewrite Hgt. reflexivity.
  - reflexivity.
Qed.

(** X1.  Whatever level the caller passes, NaN and the infinities
    included, the level the branches test is a finite number above zero
    and at most one.  Computing it again from itself changes nothing, and
    the [std::max] with 0.0 never alters the value handed to it. *)
Theorem effective_level_range (level : float) :
  F32.valid level = true ->
  F32.valid (effective_level level) = true /\
  F32.finite_or_zero (effective_level level) = true /\
  F32.gtQ (effective_level level) 0 = true /\
  F32.leQ (effective_level level) 1 = true /\
  effective_level (effective_level level) = effective_level level /\
  clamp (substitute_default level) = F32.min (F32.lit 1.0) (substitute_default level).
Proof.
  intros Hv.
  assert (Hidle := clamp_lower_end_idle level).
  rewrite (ProfileFacts.effective_level_eq level).
  destruct (F32.gt level (F32.lit 0.0) && F32.lt level (F32.lit 1.0)) eqn:Hc.
  - assert (Hagain : effective_level level = level)
      by (rewrite ProfileFacts.effective_level_eq, Hc; reflexivity).
    apply andb_prop in Hc as [Hg Hl].
    rewrite F32Facts.gt_lit_0_0 in Hg by exact Hv.
    rewrite F32Facts.lt_lit_1_0 in Hl by exact Hv.
    assert (Hf : F32.finite_or_zero level = true)
      by (destruct level as [s | [] | | s m e]; try reflexivity; discriminate).
    destruct (ProfileFacts.Q_tests level 1 Hf) as (_ & Hle & _ & Hlt).
    repeat split; try assumption.
    rewrite Hle. rewrite Hlt in Hl.
    apply Z.ltb_lt in Hl. apply Z.leb_le. lia.
  - repeat split; try reflexivity. exact Hidle.
Qed.

Lemma effective_level_range_witness :
  F32.gtQ (effective_level S754_nan) 0 = true /\
  F32.leQ (effective_level (S754_infinity false)) 1 = true /\
  effective_level (effective_level (F32.lit 0.25)) = effective_level (F32.lit 0.25).
Proof.
  split; [| split].
  - exact (proj1 (proj2 (proj2 (effective_level_range S754_nan eq_refl)))).
  - exact (proj1 (proj2 (proj2 (proj2
             (effective_level_range (S754_infinity false) eq_refl))))).
  - exact (proj1 (proj2 (proj2 (proj2 (proj2
             (effective_level_range (F32.lit 0.25) eq_refl)))))).
Defined.

End ProfileExtras.

(** ** Copies and byte counts *)
Module MemExtras.
Import Mem.

(** A defined copy fits both arrays. *)
Lemma memcpy_bounds (dst src o : list int16_t) (n : Z) :
  memcpy dst src n = Some o ->
  0 <= n /\ n <= 2 * Z.of_nat (length src) /\ n <= 2 * Z.of_nat (length dst).
Proof.
  unfold memcpy, memcpy_bytes. rewrite !MemFacts.length_bytes_of.
  destruct (Z.leb_spec 0 n); [| discriminate].
  destruct (Z.leb_spec n (Z.of_nat (2 * length src))); [| discriminate].
  destruct (Z.leb_spec n (Z.of_nat (2 * length dst))); [| discriminate].
  intros _. lia.
Qed.

(** A copy of whole samples keeps the length of the destination. *)
Lemma memcpy_length (dst src o : list int16_t) (k : nat) :
  memcpy dst src (2 * Z.of_nat k) = Some o -> length o = length dst.
Proof.
  intros Hm. apply MemFacts.memcpy_samples_inv in Hm as (Hs & Hd & ->).
  rewrite length_app, length_take, length_drop. lia.
Qed.

End MemExtras.

(** ** The overriding profiles *)
Module ProfileOrder.
Import EchoCanceller3Config Profile.

(** X14.  In both overriding branches the values are consistent with
    one another: for the low and for the high band the transparency
    threshold lies strictly below the suppression threshold, the high
    band thresholds lie strictly below the low band ones, and the ERLE
    ceiling of the high bands lies strictly below that of the low
    bands. *)
Theorem overriding_profiles_ordered (config : aec3_config_t.t) (defaults : t) :
  let c := configure config defaults in
  let lf := mask_lf (normal_tuning (suppressor c)) in
  let hf := mask_hf (normal_tuning (suppressor c)) in
  F32.ge (effective_level (aec3_config_t.suppression_level config)) (F32.lit 0.5) = true ->
  F32.lt (enr_transparent lf) (enr_suppress lf) = true /\
  F32.lt (enr_transparent hf) (enr_suppress hf) = true /\
  F32.lt (enr_transparent hf) (enr_transparent lf) = true /\
  F32.lt (enr_suppress hf) (enr_suppress lf) = true /\
  F32.lt (max_h (erle c)) (max_l (erle c)) = true.
Proof.
  cbv zeta. intros Hband. unfold configure.
  destruct (F32.ge _ (F32.lit 0.8)).
  - repeat split; reflexivity.
  - rewrite Hband. repeat split; reflexivity.
Qed.

Lemma overriding_profiles_ordered_witness :
  let c := configure (with_level (F32.lit 0.6)) sample_defaults in
  F32.lt (max_h (erle c)) (max_l (erle c)) = true.
Proof.
  exact (proj2 (proj2 (proj2 (proj2
           (overriding_profiles_ordered (with_level (F32.lit 0.6)) sample_defaults
              eq_refl))))).
Defined.

(** Whatever the level, the engine configuration carries the caller's
    linear-output flag. *)
Lemma configure_export_flag (config : aec3_config_t.t) (defaults : t) :
  export_linear_aec_output (filter (configure config defaults))
  = aec3_config_t.export_linear config.
Proof.
  unfold configure.
  destruct (F32.ge _ (F32.lit 0.8)); [reflexivity |].
  destruct (F32.ge _ (F32.lit 0.5)); reflexivity.
Qed.

End ProfileOrder.

(** ** More on the entry points *)
Section ApiExtras.
Context `{Collaborators}.

(** The byte count of the output copy is the product of the frame size,
    the channel count and two, reduced modulo [2^64]. *)
Lemma output_bytes_eq (frame_size channels : Z) :
  output_bytes frame_size channels = (frame_size * channels * 2) mod 2 ^ 64.
Proof.
  unfold output_bytes, Mem.size_mul, Mem.to_size_t, Mem.sizeof_int16_t.
  rewrite Z.mul_mod_idemp_l by discriminate.
  set (c := channels mod 2 ^ 64).
  replace (frame_size * c * 2) with (c * (frame_size * 2)) by lia.
  subst c. rewrite Z.mul_mod_idemp_l by discriminate.
  f_equal. lia.
Qed.

Lemma output_bytes_even (frame_size channels : Z) :
  exists k : nat, output_bytes frame_size channels = 2 * Z.of_nat k.
Proof.
  rewrite output_bytes_eq.
  exists (Z.to_nat ((frame_size * channels) mod 2 ^ 63)).
  change (2 ^ 64) with (2 ^ 63 * 2).
  rewrite Z.mul_mod_distr_r by discriminate.
  pose proof (Z.mod_pos_bound (frame_size * channels) (2 ^ 63) eq_refl).
  lia.
Qed.

(** X2.  The byte count of the output copy is computed in [size_t]: it
    is always an even number below [2^64]; it is twice the number of
    samples in the frame as long as that number is below [2^63]; and
    beyond that it wraps, so that frame sizes [2^63] apart copy the same
    bytes. *)
Theorem output_bytes_wraps (frame_size channels : Z) :
  (exists k : nat, output_bytes frame_size channels = 2 * Z.of_nat k) /\
  0 <= output_bytes frame_size channels < 2 ^ 64 /\
  (0 <= frame_size * channels < 2 ^ 63 ->
   output_bytes frame_size channels = 2 * (frame_size * channels)) /\
  output_bytes (frame_size + 2 ^ 63) channels = output_bytes frame_size channels.
Proof.
  split; [apply output_bytes_even |]. split; [| split].
  - rewrite output_bytes_eq. apply Z.mod_pos_bound. reflexivity.
  - intros Hsmall. rewrite output_bytes_eq.
    rewrite Z.mod_small; [lia |].
    change (2 ^ 64) with (2 * 2 ^ 63). lia.
  - rewrite !output_bytes_eq.
    replace ((frame_size + 2 ^ 63) * channels * 2)
      with (frame_size * channels * 2 + channels * 2 ^ 64)
      by (change (2 ^ 64) with (2 ^ 63 * 2); lia).
    apply Z.mod_add. discriminate.
Qed.

Lemma output_bytes_wraps_witness :
  output_bytes 160 1 = 2 * (160 * 1) /\
  output_bytes (0 + 2 ^ 63) 1 = output_bytes 0 1.
Proof.
  split.
  - apply (proj1 (proj2 (proj2 (output_bytes_wraps 160 1)))). lia.
  - exact (proj2 (proj2 (proj2 (output_bytes_wraps 0 1)))).
Defined.


(** What [aec3_create] does with a configuration, in one equation: the
    address, the handle object and the constructor calls. *)
Lemma create_run (config : aec3_config_t.t) (w : world _) :
  let a := fresh (dom (heap w)) in
  let rate := aec3_config_t.sample_rate config in
  let channels := aec3_config_t.num_channels config in
  let aec_config := Profile.configure config default_config in
  aec3_create (Some config) w =
  Returns
    (Some a,
     {| heap :=
          <[a := {| echo_controller := Factory_Create aec_config rate channels channels;
                    hp_filter := HighPassFilter_new rate channels;
                    ref_audio := AudioBuffer_new rate channels rate channels rate channels;
                    aec_audio := AudioBuffer_new rate channels rate channels rate channels;
                    aec_linear_audio :=
                      if aec3_config_t.export_linear config
                      then Some (AudioBuffer_new 16000 channels 16000 channels
                                   16000 channels)
                      else None;
                    ref_frame := AudioFrame_new;
                    aec_frame := AudioFrame_new;
                    sample_rate := rate;
                    num_channels := channels |}]> (heap w);
        calls :=
          calls w ++
          [ New_aec3_handle a;
            Call_Factory_Create aec_config rate channels channels;
            New_HighPassFilter rate channels;
            New_AudioBuffer RefAudio rate channels rate channels rate channels;
            New_AudioBuffer AecAudio rate channels rate channels rate channels ] ++
          (if aec3_config_t.export_linear config
           then [ New_AudioBuffer AecLinearAudio 16000 channels 16000 channels
                    16000 channels ]
           else []) |}).
Proof.
  cbv zeta.
  unfold aec3_create, bind, new_aec3_handle_t, construct, emit, store, ret, bind.
  destruct (aec3_config_t.export_linear config);
    cbn; rewrite <- !app_assoc; reflexivity.
Qed.

Lemma fresh_address (w : world _) : heap w !! fresh (dom (heap w)) = None.
Proof. apply not_elem_of_dom, is_fresh. Qed.

(** X3.  [aec3_create] with a configuration returns a non-null handle at
    an address where no handle lived; the handles that lived before are
    as they were.  The new handle object carries the rate and channel
    count of the configuration, an engine built by the factory from the
    tuned configuration with as many render as capture channels, a
    high-pass filter and two audio buffers for that rate and channel
    count, two fresh frames, and a linear buffer exactly when the
    configuration asks for linear output. *)
Theorem create_builds_handle (config : aec3_config_t.t) (w : world _) :
  let rate := aec3_config_t.sample_rate config in
  let channels := aec3_config_t.num_channels config in
  exists a w',
    aec3_create (Some config) w = Returns (Some a, w') /\
    heap w !! a = None /\
    (forall b, b <> a -> heap w' !! b = heap w !! b) /\
    heap w' !! a =
      Some {| echo_controller :=
                Factory_Create (Profile.configure config default_config)
                  rate channels channels;
              hp_filter := HighPassFilter_new rate channels;
              ref_audio := AudioBuffer_new rate channels rate channels rate channels;
              aec_audio := AudioBuffer_new rate channels rate channels rate channels;
              aec_linear_audio :=
                if aec3_config_t.export_linear config
                then Some (AudioBuffer_new 16000 channels 16000 channels 16000 channels)
                else None;
              ref_frame := AudioFrame_new;
              aec_frame := AudioFrame_new;
              sample_rate := rate;
              num_channels := channels |}.
Proof.
  cbv zeta. eexists _, _. split; [apply create_run |]. cbn [heap].
  split; [apply fresh_address |]. split.
  - intros b Hb. apply lookup_insert_ne. congruence.
  - apply lookup_insert_eq.
Qed.

(** X4.  [aec3_create] with a configuration calls the constructors in
    this order: the handle, the engine factory, the high-pass filter, the
    reference buffer, the capture buffer, and, only when linear output is
    asked for, the linear buffer.  The two main buffers get the session
    rate for input, processing and output alike; the linear buffer gets
    16000 Hz whatever the session rate; the engine gets the tuned
    configuration. *)
Theorem create_call_order (config : aec3_config_t.t) (w : world _) :
  let rate := aec3_config_t.sample_rate config in
  let channels := aec3_config_t.num_channels config in
  exists a w',
    aec3_create (Some config) w = Returns (Some a, w') /\
    calls w' =
      calls w ++
      [ New_aec3_handle a;
        Call_Factory_Create (Profile.configure config default_config)
          rate channels channels;
        New_HighPassFilter rate channels;
        New_AudioBuffer RefAudio rate channels rate channels rate channels;
        New_AudioBuffer AecAudio rate channels rate channels rate channels ] ++
      (if aec3_config_t.export_linear config
       then [ New_AudioBuffer AecLinearAudio 16000 channels 16000 channels
                16000 channels ]
       else []).
Proof.
  cbv zeta. eexists _, _. split; [apply create_run |]. reflexivity.
Qed.

(** X5.  Destroying the handle that [aec3_create] has just returned
    gives back the heap as it was before the creation: what is created
    is released, and nothing else. *)
Theorem create_destroy_round_trip (config : aec3_config_t.t) (w : world _) :
  exists a w1 w2,
    aec3_create (Some config) w = Returns (Some a, w1) /\
    aec3_destroy (Some a) w1 = Returns (tt, w2) /\
    heap w2 = heap w /\
    calls w2 = calls w1 ++ [Delete_aec3_handle a].
Proof.
  eexists _, _, _. split; [apply create_run |].
  unfold aec3_destroy. cbn [heap calls]. rewrite lookup_insert_eq.
  split; [reflexivity |]. cbn [heap calls]. split; [| reflexivity].
  rewrite delete_insert_eq. apply delete_id, fresh_address.
Qed.

(** X6.  Two creations in a row return two different handles, and both
    are live afterwards: the second creation does not disturb the
    first. *)
Theorem successive_creates_distinct (config1 config2 : aec3_config_t.t) (w : world _) :
  exists a1 w1 a2 w2 h1,
    aec3_create (Some config1) w = Returns (Some a1, w1) /\
    aec3_create (Some config2) w1 = Returns (Some a2, w2) /\
    a1 <> a2 /\
    heap w1 !! a1 = Some h1 /\ heap w2 !! a1 = Some h1 /\
    is_Some (heap w2 !! a2).
Proof.
  eexists _, _, _, _, _. split; [apply create_run |].
  split; [apply create_run |].
  cbn [heap].
  set (a1 := fresh (dom (heap w))).
  match goal with |- context [<[a1 := ?h]> (heap w)] => set (h1 := h) end.
  set (m1 := <[a1 := h1]> (heap w)).
  assert (Hne : a1 <> fresh (dom m1)).
  { intros E. pose proof (is_fresh (dom m1)) as Hf. rewrite <- E in Hf.
    apply Hf, elem_of_dom. subst m1. rewrite lookup_insert_eq. eauto. }
  split; [exact Hne |]. split; [apply lookup_insert_eq |]. split.
  - rewrite lookup_insert_ne by (intros E; apply Hne; symmetry; exact E).
    apply lookup_insert_eq.
  - rewrite lookup_insert_eq. eauto.
Qed.


(** Everything a returning call past the null checks does, gathered:
    the status, the heap, what the handle keeps, the calls, and the
    contents of the caller's two arrays. *)
Lemma process_frame_effect
    (a : addr) (h : aec3_handle _) (w w' : world _)
    (reference capture out : list int16_t) (lin : option (list int16_t))
    (frame_size buffer_delay : Z) (r : frame_result) :
  heap w !! a = Some h ->
  aec3_process_frame (Some a) (Some reference) (Some capture) (Some out) lin
    frame_size buffer_delay w = Returns (r, w') ->
  exists (h' : aec3_handle _) (k : nat) (f : AudioFrame),
    status r = 0 /\
    heap w' = <[a := h']> (heap w) /\
    sample_rate h' = sample_rate h /\
    num_channels h' = num_channels h /\
    is_null (aec_linear_audio h') = is_null (aec_linear_audio h) /\
    calls w' =
      calls w ++
      (process_calls (Some reference) (Some capture) frame_size buffer_delay
         (sample_rate h) (negb (is_null (aec_linear_audio h))) ++
       copy_out_calls frame_size (num_channels h)) ++
      (if negb (is_null lin) && negb (is_null (aec_linear_audio h))
       then linear_step_calls else []) /\
    output_bytes frame_size (num_channels h) = 2 * Z.of_nat k /\
    (k <= length out)%nat /\ (k <= length (data f))%nat /\
    output_frame_after r = Some (take k (data f) ++ drop k out) /\
    (negb (is_null lin) && negb (is_null (aec_linear_audio h)) = false ->
     f = aec_frame h' /\ linear_output_frame_after r = lin) /\
    (forall l, lin = Some l -> is_null (aec_linear_audio h) = false ->
       (160 <= length l)%nat /\ (160 <= length (data (aec_frame h')))%nat /\
       linear_output_frame_after r =
         Some (take 160 (data (aec_frame h')) ++ drop 160 l)).
Proof.
  intros Hh Hcall.
  destruct (process_frame_run a h w reference capture out lin
              frame_size buffer_delay Hh) as (s1 & (Hr & Hc & Hl) & Hrun).
  cbn in Hr, Hc, Hl. rewrite Hrun in Hcall. clear Hrun. cbv zeta in Hcall.
  destruct (output_bytes_even frame_size (num_channels h)) as [k Hk].
  rewrite Hk in Hcall.
  destruct (Mem.memcpy out _ _) as [o |] eqn:Hcopy; [| discriminate Hcall].
  apply MemFacts.memcpy_samples_inv in Hcopy as (Hsrc & Hdst & ->).
  destruct lin as [l |]; [destruct (aec_linear_audio (hd s1)) as [y |] eqn:Hy |].
  - destruct (Mem.memcpy l _ 320) as [o' |] eqn:Hlcopy; [| discriminate Hcall].
    change 320 with (2 * Z.of_nat 160) in Hlcopy.
    apply MemFacts.memcpy_samples_inv in Hlcopy as (Hlsrc & Hldst & ->).
    injection Hcall as <- <-.
    assert (Hlin : is_null (aec_linear_audio h) = false) by (rewrite <- Hl; reflexivity).
    eexists _, k, (aec_frame (hd s1)).
    split; [reflexivity |]. split; [reflexivity |].
    split; [exact Hr |]. split; [exact Hc |].
    split; [rewrite Hlin; reflexivity |].
    split; [cbn [calls]; unfold copy_out_calls; rewrite Hlin, Hk; reflexivity |].
    split; [exact Hk |]. split; [exact Hdst |]. split; [exact Hsrc |].
    split; [reflexivity |]. split.
    + rewrite Hlin. discriminate.
    + intros l0 [= <-] _. split; [exact Hldst |]. split; [exact Hlsrc |]. reflexivity.
  - injection Hcall as <- <-.
    assert (Hlin : is_null (aec_linear_audio h) = true) by (rewrite <- Hl; reflexivity).
    eexists _, k, (aec_frame (hd s1)).
    split; [reflexivity |]. split; [reflexivity |].
    split; [exact Hr |]. split; [exact Hc |].
    split; [rewrite Hy; exact Hl |].
    split; [cbn [calls]; unfold copy_out_calls; rewrite Hlin, Hk; reflexivity |].
    split; [exact Hk |]. split; [exact Hdst |]. split; [exact Hsrc |].
    split; [reflexivity |]. split.
    + intros _. split; reflexivity.
    + intros l0 _ Hn. rewrite Hlin in Hn. discriminate Hn.
  - injection Hcall as <- <-.
    eexists _, k, (aec_frame (hd s1)).
    split; [reflexivity |]. split; [reflexivity |].
    split; [exact Hr |]. split; [exact Hc |].
    split; [exact Hl |].
    split; [cbn [calls]; unfold copy_out_calls; rewrite Hk;
            destruct (aec_linear_audio h); reflexivity |].
    split; [exact Hk |]. split; [exact Hdst |]. split; [exact Hsrc |].
    split; [reflexivity |]. split.
    + intros _. split; reflexivity.
    + intros l0 Hl0. discriminate Hl0.
Qed.


(** A call past the null checks on a live handle returns when its copies
    fit, all frames having a [data()] array of [capacity] samples. *)
Lemma process_frame_defined (capacity : nat)
    (a : addr) (h : aec3_handle _) (w : world _)
    (reference capture out : list int16_t) (lin : option (list int16_t))
    (frame_size buffer_delay : Z) :
  heap w !! a = Some h ->
  (forall f : AudioFrame, length (data f) = capacity) ->
  output_bytes frame_size (num_channels h)
    <= 2 * Z.of_nat (Nat.min (length out) capacity) ->
  (forall l, lin = Some l -> is_null (aec_linear_audio h) = false ->
             (160 <= Nat.min (length l) capacity)%nat) ->
  exists r w',
    aec3_process_frame (Some a) (Some reference) (Some capture) (Some out) lin
      frame_size buffer_delay w = Returns (r, w').
Proof.
  intros Hh Hcap Hout Hlin.
  destruct (process_frame_run a h w reference capture out lin
              frame_size buffer_delay Hh) as (s1 & (_ & _ & Hl) & Hrun).
  cbn in Hl. rewrite Hrun. clear Hrun. cbv zeta.
  destruct (MemFacts.memcpy_defined out (data (aec_frame (hd s1)))
              (output_bytes frame_size (num_channels h))
              (output_bytes_nonneg _ _)) as [o ->];
    [rewrite Hcap; lia | lia |].
  destruct lin as [l |]; [destruct (aec_linear_audio (hd s1)) as [y |] |].
  - assert (Hnn : is_null (aec_linear_audio h) = false) by (rewrite <- Hl; reflexivity).
    specialize (Hlin l eq_refl Hnn).
    change 320 with (2 * Z.of_nat 160).
    rewrite MemFacts.memcpy_samples by (rewrite ?Hcap; lia).
    eauto.
  - eauto.
  - eauto.
Qed.

(** X7.  A returning call works on its own handle object only: every
    other handle is as it was, no handle comes to live or dies, and the
    object itself keeps its rate, its channel count and the presence or
    absence of its linear buffer.  What [aec3_create] fixed stays fixed
    over the frames. *)
Theorem call_touches_own_handle_only
    (a : addr) (h : aec3_handle _) (w w' : world _)
    (reference capture out : list int16_t) (lin : option (list int16_t))
    (frame_size buffer_delay : Z) (r : frame_result) :
  heap w !! a = Some h ->
  aec3_process_frame (Some a) (Some reference) (Some capture) (Some out) lin
    frame_size buffer_delay w = Returns (r, w') ->
  (forall b, b <> a -> heap w' !! b = heap w !! b) /\
  dom (heap w') = dom (heap w) /\
  exists h',
    heap w' !! a = Some h' /\
    sample_rate h' = sample_rate h /\
    num_channels h' = num_channels h /\
    is_null (aec_linear_audio h') = is_null (aec_linear_audio h).
Proof.
  intros Hh Hcall.
  destruct (process_frame_effect a h w w' reference capture out lin
              frame_size buffer_delay r Hh Hcall)
    as (h' & k & f & _ & Hheap & Hr & Hc & Hl & _).
  rewrite Hheap. split; [| split].
  - intros b Hb. apply lookup_insert_ne. congruence.
  - apply dom_insert_lookup_L. rewrite Hh. eauto.
  - exists h'. split; [apply lookup_insert_eq |]. auto.
Qed.

(** X8.  A returning call writes a prefix of the caller's output array
    and nothing else of it: with [2 * k] the byte count of the copy, the
    first [k] samples are those of the engine's staging frame, the
    samples from [k] on are the caller's own, and the array keeps its
    length.  The linear output array keeps its length too, and is
    untouched when the linear step does not run. *)
Theorem output_copy_writes_prefix
    (a : addr) (h : aec3_handle _) (w w' : world _)
    (reference capture out : list int16_t) (lin : option (list int16_t))
    (frame_size buffer_delay : Z) (r : frame_result) :
  heap w !! a = Some h ->
  aec3_process_frame (Some a) (Some reference) (Some capture) (Some out) lin
    frame_size buffer_delay w = Returns (r, w') ->
  exists (k : nat) (o : list int16_t) (f : AudioFrame),
    output_bytes frame_size (num_channels h) = 2 * Z.of_nat k /\
    output_frame_after r = Some o /\
    length o = length out /\
    take k o = take k (data f) /\
    drop k o = drop k out /\
    (length <$> linear_output_frame_after r) = (length <$> lin) /\
    (negb (is_null lin) && negb (is_null (aec_linear_audio h)) = false ->
     linear_output_frame_after r = lin /\
     exists h', heap w' !! a = Some h' /\ f = aec_frame h').
Proof.
  intros Hh Hcall.
  destruct (process_frame_effect a h w w' reference capture out lin
              frame_size buffer_delay r Hh Hcall)
    as (h' & k & f & _ & Hheap & _ & _ & _ & _ & Hk & Hdst & Hsrc & Ho & Hskip & Hlin).
  exists k, (take k (data f) ++ drop k out), f.
  split; [exact Hk |]. split; [exact Ho |].
  split; [rewrite length_app, length_take, length_drop; lia |].
  split; [rewrite take_app_length'; [reflexivity | rewrite length_take; lia] |].
  split; [rewrite drop_app_length'; [reflexivity | rewrite length_take; lia] |].
  split.
  - destruct lin as [l |]; [destruct (is_null (aec_linear_audio h)) eqn:Hn |].
    + destruct (Hskip ltac:(rewrite andb_false_r; reflexivity)) as [_ ->]. reflexivity.
    + destruct (Hlin l eq_refl eq_refl) as (Hl1 & Hl2 & ->). cbn.
      rewrite length_app, length_take, length_drop. f_equal. lia.
    + destruct (Hskip eq_refl) as [_ ->]. reflexivity.
  - intros Hs. destruct (Hskip Hs) as [-> ->]. split; [reflexivity |].
    exists h'. split; [rewrite Hheap; apply lookup_insert_eq | reflexivity].
Qed.

(** X9.  A frame of size zero is no error and no shortcut: the call
    returns 0, the output array is left exactly as it was, and yet the
    whole chain of engine calls runs, with the engine's state moved on. *)
Theorem zero_frame_size_runs_engine
    (a : addr) (h : aec3_handle _) (w : world _)
    (reference capture out : list int16_t) (buffer_delay : Z) :
  heap w !! a = Some h ->
  exists r w',
    aec3_process_frame (Some a) (Some reference) (Some capture) (Some out) None
      0 buffer_delay w = Returns (r, w') /\
    status r = 0 /\
    output_frame_after r = Some out /\
    calls w' =
      calls w ++
      process_calls (Some reference) (Some capture) 0 buffer_delay
        (sample_rate h) (negb (is_null (aec_linear_audio h))) ++
      [Call_memcpy OutputFrame AecFrame 0].
Proof.
  intros Hh.
  destruct (process_frame_run a h w reference capture out None
              0 buffer_delay Hh) as (s1 & _ & Hrun).
  rewrite Hrun. clear Hrun. cbv zeta.
  assert (Hz : output_bytes 0 (num_channels h) = 2 * Z.of_nat 0)
    by (rewrite output_bytes_eq; reflexivity).
  rewrite Hz, MemFacts.memcpy_samples by lia.
  eexists _, _. split; [reflexivity |]. split; [reflexivity |].
  split; [reflexivity |]. cbn [calls]. unfold copy_out_calls. rewrite Hz. reflexivity.
Qed.

(** X10.  With frames whose [data()] array holds [capacity] samples, a
    call past the null checks on a live handle returns exactly when its
    copies fit: the byte count of the output copy is at most the size of
    the output array and of the frame array, and, if the linear step is
    to run, the linear output array and the frame array hold 160 samples
    each.  Nothing else can keep the call from returning. *)
Theorem returns_iff_copies_fit (capacity : nat)
    (a : addr) (h : aec3_handle _) (w : world _)
    (reference capture out : list int16_t) (lin : option (list int16_t))
    (frame_size buffer_delay : Z) :
  heap w !! a = Some h ->
  (forall f : AudioFrame, length (data f) = capacity) ->
  ((exists r w',
      aec3_process_frame (Some a) (Some reference) (Some capture) (Some out) lin
        frame_size buffer_delay w = Returns (r, w'))
   <->
   output_bytes frame_size (num_channels h)
     <= 2 * Z.of_nat (Nat.min (length out) capacity) /\
   (forall l, lin = Some l -> is_null (aec_linear_audio h) = false ->
              (160 <= Nat.min (length l) capacity)%nat)).
Proof.
  intros Hh Hcap. split.
  - intros (r & w' & Hcall).
    destruct (process_frame_effect a h w w' reference capture out lin
                frame_size buffer_delay r Hh Hcall)
      as (h' & k & f & _ & _ & _ & _ & _ & _ & Hk & Hdst & Hsrc & _ & _ & Hlin).
    rewrite Hcap in Hsrc. split; [lia |].
    intros l Hl Hn. destruct (Hlin l Hl Hn) as (Hl1 & Hl2 & _).
    rewrite Hcap in Hl2. lia.
  - intros [Hout Hlin].
    exact (process_frame_defined capacity a h w reference capture out lin
             frame_size buffer_delay Hh Hcap Hout Hlin).
Qed.

(** X11.  After [aec3_destroy] the handle is dead: a call of
    [aec3_process_frame] on it with all frame pointers non-null has no
    defined result.  The null checks still come first: with a null frame
    pointer the same dead handle gives -1 and nothing is touched. *)
Theorem use_after_destroy (a : addr) (h : aec3_handle _) (w : world _) :
  heap w !! a = Some h ->
  exists w',
    aec3_destroy (Some a) w = Returns (tt, w') /\
    (forall reference capture out lin frame_size buffer_delay,
       aec3_process_frame (Some a) (Some reference) (Some capture) (Some out) lin
         frame_size buffer_delay w' = Undefined) /\
    (forall capture_frame output_frame lin frame_size buffer_delay,
       exists r,
         aec3_process_frame (Some a) None capture_frame output_frame lin
           frame_size buffer_delay w' = Returns (r, w') /\
         status r = -1).
Proof.
  intros Hh. unfold aec3_destroy. rewrite Hh.
  eexists. split; [reflexivity |]. split.
  - intros. cbv beta iota delta [aec3_process_frame]. cbn [heap].
    rewrite lookup_delete_eq. reflexivity.
  - intros. cbv beta iota delta [aec3_process_frame ret].
    eexists. split; reflexivity.
Qed.

(** X12.  A handle stays usable from frame to frame.  After a returning
    call, a second call on the same handle returns 0 whenever its own
    copies fit, judged by the channel count and the linear buffer the
    handle had before the first call; and its calls are recorded after
    those of the first, with the same rate. *)
Theorem handle_stays_usable (capacity : nat)
    (a : addr) (h : aec3_handle _) (w w1 : world _) (r1 : frame_result)
    (reference1 capture1 out1 : list int16_t) (lin1 : option (list int16_t))
    (frame_size1 buffer_delay1 : Z)
    (reference2 capture2 out2 : list int16_t) (lin2 : option (list int16_t))
    (frame_size2 buffer_delay2 : Z) :
  heap w !! a = Some h ->
  (forall f : AudioFrame, length (data f) = capacity) ->
  aec3_process_frame (Some a) (Some reference1) (Some capture1) (Some out1) lin1
    frame_size1 buffer_delay1 w = Returns (r1, w1) ->
  output_bytes frame_size2 (num_channels h)
    <= 2 * Z.of_nat (Nat.min (length out2) capacity) ->
  (forall l, lin2 = Some l -> is_null (aec_linear_audio h) = false ->
             (160 <= Nat.min (length l) capacity)%nat) ->
  exists r2 w2,
    aec3_process_frame (Some a) (Some reference2) (Some capture2) (Some out2) lin2
      frame_size2 buffer_delay2 w1 = Returns (r2, w2) /\
    status r2 = 0 /\
    calls w2 =
      calls w1 ++
      (process_calls (Some reference2) (Some capture2) frame_size2 buffer_delay2
         (sample_rate h) (negb (is_null (aec_linear_audio h))) ++
       copy_out_calls frame_size2 (num_channels h)) ++
      (if negb (is_null lin2) && negb (is_null (aec_linear_audio h))
       then linear_step_calls else []).
Proof.
  intros Hh Hcap Hcall1 Hout Hlin.
  destruct (process_frame_effect a h w w1 reference1 capture1 out1 lin1
              frame_size1 buffer_delay1 r1 Hh Hcall1)
    as (h1 & _ & _ & _ & Hheap & Hr & Hc & Hl & _).
  assert (Hh1 : heap w1 !! a = Some h1) by (rewrite Hheap; apply lookup_insert_eq).
  destruct (process_frame_defined capacity a h1 w1 reference2 capture2 out2 lin2
              frame_size2 buffer_delay2 Hh1 Hcap) as (r2 & w2 & Hcall2).
  - rewrite Hc. exact Hout.
  - intros l Hl2 Hn. rewrite Hl in Hn. exact (Hlin l Hl2 Hn).
  - exists r2, w2. split; [exact Hcall2 |].
    destruct (process_frame_effect a h1 w1 w2 reference2 capture2 out2 lin2
                frame_size2 buffer_delay2 r2 Hh1 Hcall2)
      as (h2 & _ & _ & Hst & _ & _ & _ & _ & Hcalls & _).
    split; [exact Hst |]. rewrite Hcalls, Hr, Hc, Hl. reflexivity.
Qed.


(** X15.  Engine and handle agree on linear output: the configuration
    with which [aec3_create] builds the engine has its
    [export_linear_aec_output] flag set exactly when the handle it
    returns owns a linear buffer, whatever the suppression level. *)
Theorem engine_and_handle_agree_on_linear (config : aec3_config_t.t) (w : world _) :
  exists a w' h aec_config,
    aec3_create (Some config) w = Returns (Some a, w') /\
    heap w' !! a = Some h /\
    echo_controller h =
      Factory_Create aec_config (aec3_config_t.sample_rate config)
        (aec3_config_t.num_channels config) (aec3_config_t.num_channels config) /\
    EchoCanceller3Config.export_linear_aec_output
      (EchoCanceller3Config.filter aec_config)
    = negb (is_null (aec_linear_audio h)).
Proof.
  eexists _, _, _, _. split; [apply create_run |]. cbn [heap].
  split; [apply lookup_insert_eq |]. split; [reflexivity |].
  rewrite ProfileOrder.configure_export_flag. cbn [aec_linear_audio].
  destruct (aec3_config_t.export_linear config); reflexivity.
Qed.

End ApiExtras.

(** ** Further runs on the pass-through stand-in *)
Module ExtraRuns.
Import Loopback.

Lemma frame_capacity (f : @AudioFrame collaborators) :
  length (@data collaborators f) = kMaxDataSizeSamples.
Proof. apply Runs.fit_length. Qed.

Lemma call_touches_own_handle_only_witness :
  let run := returned (first_frame true true 160 3) failed in
  dom (heap (snd run)) = dom (heap (snd (created true))).
Proof.
  exact (proj1 (proj2
           (call_touches_own_handle_only 1%positive (new_handle true)
              (snd (created true)) _ _ _ _ _ _ _ _
              (proj2 (Runs.created_handle true)) (proj1 Runs.first_frame_returns)))).
Defined.

Lemma output_copy_writes_prefix_witness :
  let run := returned (first_frame true true 160 3) failed in
  exists o, output_frame_after (fst run) = Some o /\
            length o = length (samples 160 silence).
Proof.
  cbv zeta.
  destruct (output_copy_writes_prefix 1%positive (new_handle true)
              (snd (created true)) _ _ _ _ _ _ _ _
              (proj2 (Runs.created_handle true)) (proj1 Runs.first_frame_returns))
    as (k & o & f & _ & Ho & Hlen & _).
  exists o. split; assumption.
Defined.

Lemma zero_frame_size_runs_engine_witness :
  exists r w',
    first_frame false false 0 3 = Returns (r, w') /\
    status r = 0 /\
    output_frame_after r = Some (samples 160 silence).
Proof.
  destruct (zero_frame_size_runs_engine 1%positive (new_handle false)
              (snd (created false)) (samples 160 tone) (samples 160 tone)
              (samples 160 silence) 3 (proj2 (Runs.created_handle false)))
    as (r & w' & Hcall & Hst & Hout & _).
  exists r, w'. split; [exact Hcall |]. split; assumption.
Defined.

Lemma returns_iff_copies_fit_witness :
  output_bytes 160 1 <= 2 * Z.of_nat (Nat.min 160 kMaxDataSizeSamples).
Proof.
  assert (Hret : exists r w',
             aec3_process_frame (Some 1%positive) (Some (samples 160 tone))
               (Some (samples 160 tone)) (Some (samples 160 silence))
               (Some (samples 320 mark)) 160 3 (snd (created true)) = Returns (r, w'))
    by (eexists _, _; exact (proj1 Runs.first_frame_returns)).
  exact (proj1 (proj1 (returns_iff_copies_fit kMaxDataSizeSamples 1%positive
                         (new_handle true) (snd (created true)) _ _ _ _ _ _
                         (proj2 (Runs.created_handle true)) frame_capacity) Hret)).
Defined.

Lemma use_after_destroy_witness :
  exists w',
    aec3_destroy (Some 1%positive) (snd (created false)) = Returns (tt, w') /\
    aec3_process_frame (Some 1%positive) (Some (samples 160 tone))
      (Some (samples 160 tone)) (Some (samples 160 silence)) None 160 3 w'
    = Undefined.
Proof.
  destruct (use_after_destroy 1%positive (new_handle false) (snd (created false))
              (proj2 (Runs.created_handle false))) as (w' & Hd & Hdead & _).
  exists w'. split; [exact Hd | apply Hdead].
Defined.

Lemma handle_stays_usable_witness :
  let run := returned (first_frame true true 160 3) failed in
  exists r2 w2,
    aec3_process_frame (Some 1%positive) (Some (samples 160 tone))
      (Some (samples 160 silence)) (Some (samples 160 silence))
      (Some (samples 320 mark)) 160 4 (snd run) = Returns (r2, w2) /\
    status r2 = 0.
Proof.
  cbv zeta.
  destruct (handle_stays_usable kMaxDataSizeSamples 1%positive (new_handle true)
              (snd (created true)) _ _ _ _ _ _ _ _
              (samples 160 tone) (samples 160 silence) (samples 160 silence)
              (Some (samples 320 mark)) 160 4
              (proj2 (Runs.created_handle true)) frame_capacity
              (proj1 Runs.first_frame_returns))
    as (r2 & w2 & Hcall & Hst & _).
  - vm_compute. discriminate.
  - intros l [= <-] _. vm_compute. lia.
  - exists r2, w2. split; assumption.
Defined.


End ExtraRuns.
